(** * codegen: the module builder and its synthetic listing

    A shallow embedding of [include/codegen/module_builder.hpp]:
    the source code generator that numbers the lines of the listing, the
    statement primitive [return_], the function builder and
    [module_builder::create_function], together with the properties that
    tie the listing to the debug metadata. *)

From Stdlib Require Import ZArith Lia Ascii.
From stdpp Require Import base option list strings pretty gmap.

(** ** Machine integers

    [unsigned] is taken to be 32 bits wide; arithmetic on it wraps. *)

Definition UINT_MODULUS : Z := 2 ^ 32.

Definition wrap (z : Z) : Z := (z mod UINT_MODULUS)%Z.

(** ** The source code generator (lines 61-72) *)

Module source_code_generator.

Record t := mk {
  source_code_ : string;   (* the text held by the stringstream *)
  line_no_ : Z;            (* unsigned line_no_ = 1 *)
  indent_ : Z              (* unsigned indent_ = 0 *)
}.

(** The state given by the default member initialisers. *)
Definition init : t := {| source_code_ := ""; line_no_ := 1; indent_ := 0 |}.

(** The line terminator of the listing. *)
Definition newline : string := String "010"%char "".

(** [std::string(n, ' ')]. *)
Fixpoint spaces (n : nat) : string :=
  match n with
  | O => ""
  | S m => String " "%char (spaces m)
  end.

(** Modelled from the spec: the body of [add_line], of which the header
    has only the declaration [unsigned add_line(std::string const&)].
    It appends the text, prefixed by the current indentation, as a new
    line, returns the line number just assigned and increments the
    counter. *)
Definition add_line (text : string) (g : t) : Z * t :=
  (line_no_ g,
   {| source_code_ :=
        source_code_ g +:+ spaces (Z.to_nat (indent_ g)) +:+ text +:+ newline;
      line_no_ := wrap (line_no_ g + 1);
      indent_ := indent_ g |}).

Definition enter_scope (g : t) : t :=
  {| source_code_ := source_code_ g;
     line_no_ := line_no_ g;
     indent_ := wrap (indent_ g + 4) |}.

Definition leave_scope (g : t) : t :=
  {| source_code_ := source_code_ g;
     line_no_ := line_no_ g;
     indent_ := wrap (indent_ g - 4) |}.

Definition current_line (g : t) : Z := line_no_ g.

(** Modelled from the spec: the body of [get], declared in the header
    only; it returns the full accumulated listing text. *)
Definition get (g : t) : string := source_code_ g.

(** A client of one generator is a sequence of calls of its three
    mutating members. *)
Inductive call :=
  | AddLine (text : string)
  | EnterScope
  | LeaveScope.

Definition perform (g : t) (c : call) : t :=
  match c with
  | AddLine text => snd (add_line text g)
  | EnterScope => enter_scope g
  | LeaveScope => leave_scope g
  end.

Definition run (calls : list call) (g : t) : t := fold_left perform calls g.

(** How many lines a sequence of calls appends. *)
Fixpoint lines_added (calls : list call) : Z :=
  match calls with
  | [] => 0
  | AddLine _ :: rest => 1 + lines_added rest
  | _ :: rest => lines_added rest
  end.

(** What one call adds to the number of open scopes. *)
Definition delta (c : call) : Z :=
  match c with
  | EnterScope => 1
  | LeaveScope => -1
  | AddLine _ => 0
  end.

(** Scopes entered minus scopes left. *)
Fixpoint net_open (calls : list call) : Z :=
  match calls with
  | [] => 0
  | c :: rest => delta c + net_open rest
  end.

(** A balanced sequence never leaves a scope it has not entered and
    ends with every scope closed; [d] is the depth it starts at. *)
Fixpoint balanced_from (d : Z) (calls : list call) : bool :=
  match calls with
  | [] => (d =? 0)%Z
  | c :: rest =>
      let d' := (d + delta c)%Z in
      (0 <=? d')%Z && balanced_from d' rest
  end.

(** [nesting_below hi d calls]: started at depth [d], the depth stays
    below [hi] after every call. *)
Fixpoint nesting_below (hi d : Z) (calls : list call) : bool :=
  match calls with
  | [] => true
  | c :: rest =>
      let d' := (d + delta c)%Z in
      (d' <? hi)%Z && nesting_below hi d' rest
  end.

Definition balanced (calls : list call) : bool := balanced_from 0 calls.

(** A generator is well formed when its two counters are values of
    [unsigned]. *)
Definition in_range (g : t) : Prop :=
  (0 <= line_no_ g < UINT_MODULUS)%Z ∧ (0 <= indent_ g < UINT_MODULUS)%Z.

End source_code_generator.

(** ** The backend

    The code generation library behind the builder is external to the
    repository.  It is represented by the objects the builder creates in
    it: functions with their blocks and instructions, debug subprograms,
    and the insertion cursor with its current debug location.  Objects
    are referred to by their position in the container that owns them. *)

Module llvm.

Inductive type_ := VoidTy | Int32Ty.

Inductive dwarf_encoding := DW_ATE_signed.

Inductive di_type :=
  | DIBasicType (name : string) (size_in_bits : N) (encoding : dwarf_encoding).

(** [llvm::DIScope*]: the debug file or a subprogram. *)
Inductive di_scope :=
  | DIFile (id : nat)
  | DISubprogram (id : nat).

(** [llvm::DebugLoc]; the empty location is [None]. *)
Record debug_loc := DebugLoc_get {
  dl_line : Z;
  dl_col : Z;
  dl_scope : di_scope
}.

(** [llvm::Value*]: an argument of a function, or an integer literal. *)
Inductive value :=
  | Argument (fn idx : nat)
  | ConstantInt (bits : N) (v : Z).

Inductive instruction :=
  | Ret (v : value).

Record basic_block := {
  bb_name : string;
  bb_instructions : list (instruction * option debug_loc)
}.

Record function := {
  fn_name : string;
  fn_return_type : type_;
  fn_param_types : list type_;
  fn_arg_names : list string;
  fn_subprogram : option di_scope;
  fn_blocks : list basic_block
}.

(** [llvm::DINode::DIFlags] and [llvm::DISubprogram::DISPFlags], as
    far as the builder uses them; a mask is the list of its flags. *)
Inductive di_flag := FlagPrototyped.

Inductive disp_flag := SPFlagDefinition | SPFlagOptimized.

Record subprogram := {
  sp_scope : di_scope;
  sp_name : string;
  sp_linkage_name : string;
  sp_file : di_scope;
  sp_line : Z;
  sp_type : list (option di_type);
  sp_scope_line : Z;
  sp_flags : list di_flag;
  sp_sp_flags : list disp_flag
}.

Record ir_builder := {
  current_debug_location : option debug_loc;
  insert_point : option (nat * nat)
}.

(** [llvm::Function::Create(type, ExternalLinkage, name, module)]. *)
Definition Function_Create (ret : type_) (params : list type_) (name : string)
    (m : list function) : nat * list function :=
  (length m,
   m ++ [{| fn_name := name;
            fn_return_type := ret;
            fn_param_types := params;
            fn_arg_names := replicate (length params) "";
            fn_subprogram := None;
            fn_blocks := [] |}]).

Definition with_subprogram (sp : di_scope) (f : function) : function :=
  {| fn_name := fn_name f;
     fn_return_type := fn_return_type f;
     fn_param_types := fn_param_types f;
     fn_arg_names := fn_arg_names f;
     fn_subprogram := Some sp;
     fn_blocks := fn_blocks f |}.

Definition with_arg_names (names : list string) (f : function) : function :=
  {| fn_name := fn_name f;
     fn_return_type := fn_return_type f;
     fn_param_types := fn_param_types f;
     fn_arg_names := names;
     fn_subprogram := fn_subprogram f;
     fn_blocks := fn_blocks f |}.

Definition with_blocks (blocks : list basic_block) (f : function) : function :=
  {| fn_name := fn_name f;
     fn_return_type := fn_return_type f;
     fn_param_types := fn_param_types f;
     fn_arg_names := fn_arg_names f;
     fn_subprogram := fn_subprogram f;
     fn_blocks := blocks |}.

(** [fn->setSubprogram(sp)]. *)
Definition setSubprogram (fn : nat) (sp : di_scope) (m : list function)
    : list function :=
  alter (with_subprogram sp) fn m.

(** [(fn->arg_begin() + idx)->setName(name)]. *)
Definition Argument_setName (fn idx : nat) (name : string) (m : list function)
    : list function :=
  alter (λ f, with_arg_names (<[idx := name]> (fn_arg_names f)) f) fn m.

(** [llvm::BasicBlock::Create(context, name, fn)]. *)
Definition BasicBlock_Create (name : string) (fn : nat) (m : list function)
    : (nat * nat) * list function :=
  ((fn, from_option (λ f, length (fn_blocks f)) 0%nat (m !! fn)),
   alter (λ f, with_blocks
                 (fn_blocks f ++ [{| bb_name := name; bb_instructions := [] |}]) f)
         fn m).

(** [DIBuilder::createFunction]: the new subprogram and its handle. *)
Definition createFunction (scope : di_scope) (name linkage_name : string)
    (file : di_scope) (line_no : Z) (ty : list (option di_type))
    (scope_line : Z) (flags : list di_flag) (sp_flags : list disp_flag)
    (d : list subprogram) : di_scope * list subprogram :=
  (DISubprogram (length d),
   d ++ [{| sp_scope := scope;
            sp_name := name;
            sp_linkage_name := linkage_name;
            sp_file := file;
            sp_line := line_no;
            sp_type := ty;
            sp_scope_line := scope_line;
            sp_flags := flags;
            sp_sp_flags := sp_flags |}]).

Definition SetCurrentDebugLocation (l : option debug_loc) (b : ir_builder)
    : ir_builder :=
  {| current_debug_location := l; insert_point := insert_point b |}.

Definition SetInsertPoint (block : nat * nat) (b : ir_builder) : ir_builder :=
  {| current_debug_location := current_debug_location b;
     insert_point := Some block |}.

(** The cursor inserts an instruction at the end of its block and gives
    it the current debug location; without a block nothing is inserted. *)
Definition Insert (i : instruction) (b : ir_builder) (m : list function)
    : list function :=
  match insert_point b with
  | None => m
  | Some (fn, block) =>
      alter (λ f, with_blocks
                    (alter (λ bb, {| bb_name := bb_name bb;
                                     bb_instructions :=
                                       bb_instructions bb
                                         ++ [(i, current_debug_location b)] |})
                           block (fn_blocks f)) f)
            fn m
  end.

Definition CreateRet (v : value) (b : ir_builder) (m : list function)
    : list function :=
  Insert (Ret v) b m.

End llvm.

(** ** Host types (lines 99-117)

    The trait [detail::type<T>] is specialised for [void] and [int32_t]. *)

Inductive host_type := void | int32_t.

Module type.

Definition name (T : host_type) : string :=
  match T with
  | void => "void"
  | int32_t => "i32"
  end.

Definition llvm (T : host_type) : llvm.type_ :=
  match T with
  | void => llvm.VoidTy
  | int32_t => llvm.Int32Ty
  end.

Definition dbg (T : host_type) : option llvm.di_type :=
  match T with
  | void => None
  | int32_t => Some (llvm.DIBasicType (name int32_t) 32 llvm.DW_ATE_signed)
  end.

End type.

(** ** Typed values and function references (lines 42-50, 127-139) *)

Record value := {
  value_ : llvm.value;
  name_ : string
}.

Record function_ref := {
  fr_name : string;
  function_ : nat
}.

Definition eval (v : value) : llvm.value := value_ v.

(** ** The module builder (lines 52-93) *)

Record module_builder := {
  module_ : list llvm.function;
  ir_builder_ : llvm.ir_builder;
  source_code_ : source_code_generator.t;
  source_file_ : string;
  dbg_builder_ : list llvm.subprogram;
  dbg_file_ : llvm.di_scope;
  dbg_scope_ : llvm.di_scope
}.

Definition set_module (m : list llvm.function) (mb : module_builder) :=
  {| module_ := m;
     ir_builder_ := ir_builder_ mb;
     source_code_ := source_code_ mb;
     source_file_ := source_file_ mb;
     dbg_builder_ := dbg_builder_ mb;
     dbg_file_ := dbg_file_ mb;
     dbg_scope_ := dbg_scope_ mb |}.

Definition set_ir_builder (b : llvm.ir_builder) (mb : module_builder) :=
  {| module_ := module_ mb;
     ir_builder_ := b;
     source_code_ := source_code_ mb;
     source_file_ := source_file_ mb;
     dbg_builder_ := dbg_builder_ mb;
     dbg_file_ := dbg_file_ mb;
     dbg_scope_ := dbg_scope_ mb |}.

Definition set_source_code (g : source_code_generator.t) (mb : module_builder) :=
  {| module_ := module_ mb;
     ir_builder_ := ir_builder_ mb;
     source_code_ := g;
     source_file_ := source_file_ mb;
     dbg_builder_ := dbg_builder_ mb;
     dbg_file_ := dbg_file_ mb;
     dbg_scope_ := dbg_scope_ mb |}.

Definition set_dbg_builder (d : list llvm.subprogram) (mb : module_builder) :=
  {| module_ := module_ mb;
     ir_builder_ := ir_builder_ mb;
     source_code_ := source_code_ mb;
     source_file_ := source_file_ mb;
     dbg_builder_ := d;
     dbg_file_ := dbg_file_ mb;
     dbg_scope_ := dbg_scope_ mb |}.

Definition set_dbg_scope (s : llvm.di_scope) (mb : module_builder) :=
  {| module_ := module_ mb;
     ir_builder_ := ir_builder_ mb;
     source_code_ := source_code_ mb;
     source_file_ := source_file_ mb;
     dbg_builder_ := dbg_builder_ mb;
     dbg_file_ := dbg_file_ mb;
     dbg_scope_ := s |}.

(** Modelled from the spec: the constructor of [module_builder], declared
    in the header only.  A builder is created empty: no function, no
    subprogram, the cursor without block or debug location, the source
    generator in its initial state, and the debug file as the outermost
    debug scope. *)
Definition new_module_builder (source_file : string) : module_builder :=
  {| module_ := [];
     ir_builder_ := {| llvm.current_debug_location := None;
                       llvm.insert_point := None |};
     source_code_ := source_code_generator.init;
     source_file_ := source_file;
     dbg_builder_ := [];
     dbg_file_ := llvm.DIFile 0;
     dbg_scope_ := llvm.DIFile 0 |}.

(** ** Builders in memory and the thread's current builder (line 97)

    Builders are objects referred to by address; [current_builder] is the
    thread-local pointer, [None] when null. *)

Record world := {
  builders : gmap nat module_builder;
  current_builder : option nat
}.

(** How a call can end with the program stopped or undefined. *)
Inductive failure :=
  | AssertionFailed    (* an [assert] does not hold: the process aborts *)
  | InvalidPointer.    (* a null or dangling builder is dereferenced *)

(** A call returns a result, stops the program, or is left by an
    exception; the header has no handler and no guard object, so an
    exception passes through every caller with the world as it is at
    the point where it is thrown. *)
Inductive outcome (A : Type) :=
  | Done (a : A) (w : world)
  | Fail (e : failure)
  | Raised (w : world).
Arguments Done {A} a w.
Arguments Fail {A} e.
Arguments Raised {A} w.

Definition M (A : Type) : Type := world → outcome A.

Global Instance M_ret : MRet M := λ A a w, Done a w.

Global Instance M_bind : MBind M := λ A B k m w,
  match m w with
  | Done a w' => k a w'
  | Fail e => Fail e
  | Raised w' => Raised w'
  end.

Definition get_current_builder : M (option nat) :=
  λ w, Done (current_builder w) w.

Definition set_current_builder (p : option nat) : M unit :=
  λ w, Done tt {| builders := builders w; current_builder := p |}.

Definition assert (b : bool) : M unit :=
  λ w, if b then Done tt w else Fail AssertionFailed.

(** [*p] read through a builder pointer. *)
Definition load (p : option nat) : M module_builder :=
  λ w, match p with
       | Some a =>
           match builders w !! a with
           | Some mb => Done mb w
           | None => Fail InvalidPointer
           end
       | None => Fail InvalidPointer
       end.

(** Writing the object behind a builder pointer. *)
Definition store (p : option nat) (mb : module_builder) : M unit :=
  λ w, match p with
       | Some a =>
           match builders w !! a with
           | Some _ =>
               Done tt {| builders := <[a := mb]> (builders w);
                          current_builder := current_builder w |}
           | None => Fail InvalidPointer
           end
       | None => Fail InvalidPointer
       end.

(** ** Statement emission: [return_] (lines 155-160) *)

Definition return_text (v : value) : string := "return " +:+ name_ v +:+ ";".

(** The three statements of [return_] on the builder [mb]. *)
Definition emit_return (v : value) (mb : module_builder) : module_builder :=
  let '(line_no, g) :=
    source_code_generator.add_line (return_text v) (source_code_ mb) in
  let mb := set_source_code g mb in
  let mb := set_ir_builder
              (llvm.SetCurrentDebugLocation
                 (Some (llvm.DebugLoc_get line_no 1 (dbg_scope_ mb)))
                 (ir_builder_ mb)) mb in
  set_module (llvm.CreateRet (eval v) (ir_builder_ mb) (module_ mb)) mb.

Definition return_ (v : value) : M unit :=
  p ← get_current_builder;
  mb ← load p;
  store p (emit_return v mb).

(** ** The function builder (lines 166-220) *)

Module function_builder.

(** [prepare_argument<Argument>(args, idx)]. *)
Definition prepare_argument (fn idx : nat) (mb : module_builder)
    : module_builder :=
  let name := "arg" +:+ pretty idx in
  set_module (llvm.Argument_setName fn idx name (module_ mb)) mb.

(** One operand of the fold expression of line 181. *)
Definition argument_text (count idx : nat) (A : host_type) : string :=
  type.name A +:+ " arg" +:+ pretty idx
    +:+ (if (idx + 1 =? count)%nat then "" else ", ").

(** The text streamed into [str] by lines 178-182. *)
Definition declaration (R : host_type) (name : string) (Args : list host_type)
    : string :=
  type.name R +:+ " " +:+ name +:+ "("
    +:+ String.concat "" (imap (argument_text (length Args)) Args)
    +:+ ") {".

(** The typed values handed to the body callback (line 187). *)
Definition argument_values (fn : nat) (Args : list host_type) : list value :=
  imap (λ idx _, {| value_ := llvm.Argument fn idx;
                    name_ := "arg" +:+ pretty idx |}) Args.

(** Lines 176-186 of [call_builder], up to the call of the callback. *)
Definition open_body (R : host_type) (name : string) (Args : list host_type)
    (fn : nat) (mb : module_builder) : module_builder :=
  let str := declaration R name Args in
  let mb := set_source_code
              (snd (source_code_generator.add_line str (source_code_ mb))) mb in
  let mb := set_source_code
              (source_code_generator.enter_scope (source_code_ mb)) mb in
  foldl (λ mb idx, prepare_argument fn idx mb) mb (seq 0 (length Args)).

(** Lines 189-190 of [call_builder], after the callback. *)
Definition close_body (mb : module_builder) : module_builder :=
  let mb := set_source_code
              (source_code_generator.leave_scope (source_code_ mb)) mb in
  set_source_code
    (snd (source_code_generator.add_line "}" (source_code_ mb))) mb.

Definition call_builder (R : host_type) (Args : list host_type) (name : string)
    (fb : list value → M unit) (fn : nat) : M unit :=
  p ← get_current_builder;
  mb ← load p;
  store p (open_body R name Args fn mb);;
  fb (argument_values fn Args);;
  mb ← load p;
  store p (close_body mb).

(** Lines 197-212 of [operator()]: the backend function, its debug
    subprogram, the new debug scope and the entry block.  The result
    carries the function and the scope that was current before. *)
Definition open_function (R : host_type) (Args : list host_type) (name : string)
    (mb : module_builder) : nat * llvm.di_scope * module_builder :=
  let '(fn, m) :=
    llvm.Function_Create (type.llvm R) (type.llvm <$> Args) name (module_ mb) in
  let mb := set_module m mb in
  let dbg_types := type.dbg R :: (type.dbg <$> Args) in
  let '(dbg_fn_scope, d) :=
    llvm.createFunction (dbg_scope_ mb) name name (dbg_file_ mb)
      (source_code_generator.current_line (source_code_ mb)) dbg_types
      (source_code_generator.current_line (source_code_ mb))
      [llvm.FlagPrototyped] [llvm.SPFlagDefinition; llvm.SPFlagOptimized]
      (dbg_builder_ mb) in
  let mb := set_dbg_builder d mb in
  let parent_scope := dbg_scope_ mb in
  let mb := set_dbg_scope dbg_fn_scope mb in
  let mb := set_module (llvm.setSubprogram fn dbg_fn_scope (module_ mb)) mb in
  let mb := set_ir_builder
              (llvm.SetCurrentDebugLocation None (ir_builder_ mb)) mb in
  let '(block, m) := llvm.BasicBlock_Create "entry" fn (module_ mb) in
  let mb := set_module m mb in
  let mb := set_ir_builder (llvm.SetInsertPoint block (ir_builder_ mb)) mb in
  (fn, parent_scope, mb).

(** [operator()(name, fb)]. *)
Definition call (R : host_type) (Args : list host_type) (name : string)
    (fb : list value → M unit) : M function_ref :=
  p ← get_current_builder;
  mb ← load p;
  let '(fn, parent_scope, mb) := open_function R Args name mb in
  store p mb;;
  call_builder R Args name fb fn;;
  mb ← load p;
  store p (set_dbg_scope parent_scope mb);;
  mret {| fr_name := name; function_ := fn |}.

End function_builder.

(** ** [module_builder::create_function] (lines 224-231) *)

Definition create_function (this : nat) (R : host_type) (Args : list host_type)
    (name : string) (fb : list value → M unit) : M function_ref :=
  cb ← get_current_builder;
  assert (bool_decide (cb = Some this) || bool_decide (cb = None));;
  let prev_builder := cb in
  set_current_builder (Some this);;
  fn_ref ← function_builder.call R Args name fb;
  set_current_builder prev_builder;;
  mret fn_ref.


(** ** Vocabulary of the statements about [create_function] *)

(** The precondition asserted on line 226. *)
Definition context_ok (this : nat) (w : world) : Prop :=
  current_builder w = None ∨ current_builder w = Some this.

(** The world in which [create_function], called in world [w] on the
    builder [mb] at address [this], invokes the body callback: lines 227
    and 196-212, then lines 176-186, have run. *)
Definition body_world (this : nat) (R : host_type) (Args : list host_type)
    (name : string) (mb : module_builder) (w : world) : world :=
  let '(fn, _, mb1) := function_builder.open_function R Args name mb in
  {| builders :=
       <[this := function_builder.open_body R name Args fn mb1]> (builders w);
     current_builder := Some this |}.

(** The world [create_function] returns in, when the callback returned
    in world [w2] with the builder [mb2] at [this]: lines 189-190, 216
    and 229 have run. *)
Definition end_world (this : nat) (parent : llvm.di_scope)
    (mb2 : module_builder) (w w2 : world) : world :=
  {| builders :=
       <[this := set_dbg_scope parent (function_builder.close_body mb2)]>
         (builders w2);
     current_builder := current_builder w |}.

(** The function that [open_function] leaves in the module. *)
Definition opened (R : host_type) (Args : list host_type) (name : string)
    (mb : module_builder) : llvm.function :=
  {| llvm.fn_name := name;
     llvm.fn_return_type := type.llvm R;
     llvm.fn_param_types := type.llvm <$> Args;
     llvm.fn_arg_names := replicate (length Args) "";
     llvm.fn_subprogram := Some (llvm.DISubprogram (length (dbg_builder_ mb)));
     llvm.fn_blocks := [{| llvm.bb_name := "entry"; llvm.bb_instructions := [] |}] |}.

(** The subprogram that [open_function] creates. *)
Definition opened_subprogram (R : host_type) (Args : list host_type)
    (name : string) (mb : module_builder) : llvm.subprogram :=
  {| llvm.sp_scope := dbg_scope_ mb;
     llvm.sp_name := name;
     llvm.sp_linkage_name := name;
     llvm.sp_file := dbg_file_ mb;
     llvm.sp_line := source_code_generator.current_line (source_code_ mb);
     llvm.sp_type := type.dbg R :: (type.dbg <$> Args);
     llvm.sp_scope_line := source_code_generator.current_line (source_code_ mb);
     llvm.sp_flags := [llvm.FlagPrototyped];
     llvm.sp_sp_flags := [llvm.SPFlagDefinition; llvm.SPFlagOptimized] |}.

(** A function whose arguments [idxs] have been given their names. *)
Definition named_arguments (idxs : list nat) (f : llvm.function) : llvm.function :=
  llvm.with_arg_names
    (foldl (λ names idx, <[idx := "arg" +:+ pretty idx]> names)
           (llvm.fn_arg_names f) idxs) f.

(** The builder the body callback starts with. *)
Definition body_builder (R : host_type) (Args : list host_type) (name : string)
    (mb : module_builder) : module_builder :=
  {| module_ := module_ mb
                ++ [named_arguments (seq 0 (length Args)) (opened R Args name mb)];
     ir_builder_ := {| llvm.current_debug_location := None;
                       llvm.insert_point := Some (length (module_ mb), 0%nat) |};
     source_code_ :=
       source_code_generator.enter_scope
         (snd (source_code_generator.add_line
                 (function_builder.declaration R name Args) (source_code_ mb)));
     source_file_ := source_file_ mb;
     dbg_builder_ := dbg_builder_ mb ++ [opened_subprogram R Args name mb];
     dbg_file_ := dbg_file_ mb;
     dbg_scope_ := llvm.DISubprogram (length (dbg_builder_ mb)) |}.

(** [consults_only run seen]: the outcome of the construction [run]
    depends on the body callback only through what the callback does
    on arguments and worlds that satisfy [seen]; so whenever [run]
    invokes the callback, [seen] holds of its arguments and of the
    world at that moment. *)
Definition consults_only
    (run : (list value → M unit) → outcome function_ref)
    (seen : list value → world → Prop) : Prop :=
  ∀ fb fb' : list value → M unit,
    (∀ args w1, seen args w1 → fb args w1 = fb' args w1) →
    run fb = run fb'.

(** The debug subprogram attached to function [fn]. *)
Definition function_subprogram (mb : module_builder) (fn : nat)
    : option llvm.subprogram :=
  f ← module_ mb !! fn;
  sp ← llvm.fn_subprogram f;
  match sp with
  | llvm.DISubprogram i => dbg_builder_ mb !! i
  | llvm.DIFile _ => None
  end.

(** The instructions of function [fn], block after block. *)
Definition function_instructions (mb : module_builder) (fn : nat)
    : list (llvm.instruction * option llvm.debug_loc) :=
  from_option (λ f, llvm.fn_blocks f ≫= llvm.bb_instructions) []
              (module_ mb !! fn).

(** The declaration text in the words of its description: return type,
    name, and between parentheses the arguments [<type> arg<i>] joined
    by a comma and a space. *)
Definition declaration_spec (R : host_type) (name : string)
    (Args : list host_type) : string :=
  type.name R +:+ " " +:+ name +:+ "("
    +:+ String.concat ", " (imap (λ i A, type.name A +:+ " arg" +:+ pretty i) Args)
    +:+ ") {".

(** A world with one new builder, at address 0, and no current builder. *)
Definition fresh_world (source_file : string) : world :=
  {| builders := {[ 0%nat := new_module_builder source_file ]};
     current_builder := None |}.

(** The same world while its builder is the current one. *)
Definition active_world (source_file : string) : world :=
  {| builders := {[ 0%nat := new_module_builder source_file ]};
     current_builder := Some 0%nat |}.

(** A body that emits nothing. *)
Definition empty_body (args : list value) : M unit := mret tt.

(** A body that overwrites the debug scope of the current builder. *)
Definition scribbling_body (args : list value) : M unit :=
  p ← get_current_builder;
  mb ← load p;
  store p (set_dbg_scope (llvm.DIFile 7) mb).

(** A body that constructs another function on builder 0. *)
Definition nesting_body (args : list value) : M unit :=
  create_function 0 void [] "inner" empty_body;;
  mret tt.

(** A body that runs [fb] if it is given [n] values and stops the
    program otherwise. *)
Definition expecting (n : nat) (fb : list value → M unit)
    (args : list value) : M unit :=
  λ w, if decide (length args = n) then fb args w else Fail InvalidPointer.


(** A body that throws at once. *)
Definition throwing_body (args : list value) : M unit := λ w, Raised w.

(** A body that returns its first parameter. *)
Definition return_first (args : list value) : M unit :=
  match args with
  | v :: _ => return_ v
  | [] => mret tt
  end.

(** ** Sample values *)

(** Two typed values over integer literals, displayed as their decimal
    text. *)
Definition seven : value := {| value_ := llvm.ConstantInt 32 7; name_ := "7" |}.

Definition eight : value := {| value_ := llvm.ConstantInt 32 8; name_ := "8" |}.

(** ** Bodies used in the statements about whole constructions *)

(** A body that returns each of the values [vs], one statement after
    the other. *)
Fixpoint returns (vs : list value) : M unit :=
  match vs with
  | [] => mret tt
  | v :: rest => return_ v;; returns rest
  end.

(** What [returns vs] does to the current builder. *)
Definition emit_returns (vs : list value) (mb : module_builder)
    : module_builder :=
  foldl (λ mb v, emit_return v mb) mb vs.

(** The instructions a run of return statements inserts, when the first
    of their lines is numbered [line]. *)
Definition return_instructions (line : Z) (scope : llvm.di_scope)
    (vs : list value) : list (llvm.instruction * option llvm.debug_loc) :=
  imap (λ i v, (llvm.Ret (value_ v),
                Some (llvm.DebugLoc_get (wrap (line + Z.of_nat i)) 1 scope))) vs.

(** The calls on the source code generator made by the construction of
    a function whose body is [returns vs]. *)
Definition construction_calls (R : host_type) (name : string)
    (Args : list host_type) (vs : list value)
    : list source_code_generator.call :=
  source_code_generator.AddLine (function_builder.declaration R name Args)
  :: source_code_generator.EnterScope
  :: (source_code_generator.AddLine <$> (return_text <$> vs))
  ++ [source_code_generator.LeaveScope; source_code_generator.AddLine "}"].

(** A body that constructs one more function on the builder at [this]
    and emits nothing itself. *)
Definition nested (this : nat) (R : host_type) (Args : list host_type)
    (name : string) (fb : list value → M unit) (args : list value) : M unit :=
  create_function this R Args name fb;;
  mret tt.

(** * Properties of the source code generator *)

Module source_code_generator_facts.
Import source_code_generator.
Local Open Scope Z_scope.

Lemma wrap_range z : 0 <= wrap z < UINT_MODULUS.
Proof. unfold wrap, UINT_MODULUS. apply Z.mod_pos_bound. reflexivity. Qed.

Lemma wrap_small z : 0 <= z < UINT_MODULUS → wrap z = z.
Proof. intros Hz. unfold wrap. apply Z.mod_small. exact Hz. Qed.

Lemma wrap_add_l a b : wrap (wrap a + b) = wrap (a + b).
Proof. unfold wrap. apply Zplus_mod_idemp_l. Qed.

Lemma init_in_range : in_range init.
Proof. unfold in_range, UINT_MODULUS. simpl. lia. Qed.

Lemma perform_in_range g c : in_range g → in_range (perform g c).
Proof.
  intros [Hl Hi]. destruct c; unfold in_range; simpl; auto using wrap_range.
Qed.

Lemma run_app calls1 calls2 g :
  run (calls1 ++ calls2) g = run calls2 (run calls1 g).
Proof. unfold run. apply fold_left_app. Qed.

Lemma run_cons c calls g : run (c :: calls) g = run calls (perform g c).
Proof. reflexivity. Qed.

Lemma run_in_range calls g : in_range g → in_range (run calls g).
Proof.
  revert g. induction calls as [|c calls IH]; intros g Hg; [exact Hg|].
  rewrite run_cons. apply IH, perform_in_range, Hg.
Qed.

Lemma net_open_app calls1 calls2 :
  net_open (calls1 ++ calls2) = net_open calls1 + net_open calls2.
Proof. induction calls1 as [|c calls1 IH]; simpl; lia. Qed.

Lemma lines_added_app calls1 calls2 :
  lines_added (calls1 ++ calls2) = lines_added calls1 + lines_added calls2.
Proof.
  induction calls1 as [|c calls1 IH]; simpl; [reflexivity|].
  destruct c; lia.
Qed.

(** The line counter after a sequence of calls. *)
Lemma line_no_run calls g :
  in_range g → line_no_ (run calls g) = wrap (line_no_ g + lines_added calls).
Proof.
  revert g. induction calls as [|c calls IH]; intros g Hg.
  - simpl. rewrite Z.add_0_r, wrap_small; [reflexivity | apply Hg].
  - rewrite run_cons, IH by (apply perform_in_range, Hg).
    destruct c; simpl; [rewrite wrap_add_l; f_equal; lia | reflexivity ..].
Qed.

(** The indentation after a sequence of calls. *)
Lemma indent_run calls g :
  in_range g → indent_ (run calls g) = wrap (indent_ g + 4 * net_open calls).
Proof.
  revert g. induction calls as [|c calls IH]; intros g Hg.
  - simpl. rewrite Z.add_0_r, wrap_small; [reflexivity | apply Hg].
  - rewrite run_cons, IH by (apply perform_in_range, Hg).
    destruct c; simpl; rewrite ?wrap_add_l; f_equal; lia.
Qed.

Lemma lines_added_replicate n text :
  lines_added (replicate n (AddLine text)) = Z.of_nat n.
Proof. induction n as [|n IH]; [reflexivity|]. simpl replicate. simpl lines_added. lia. Qed.

Lemma net_open_replicate_enter n :
  net_open (replicate n EnterScope) = Z.of_nat n.
Proof. induction n as [|n IH]; [reflexivity|]. simpl replicate. simpl net_open. lia. Qed.

Lemma net_open_replicate_leave n :
  net_open (replicate n LeaveScope) = - Z.of_nat n.
Proof. induction n as [|n IH]; [reflexivity|]. simpl replicate. simpl net_open. lia. Qed.

(** Depths reached inside a balanced sequence. *)
Lemma balanced_from_depth d pre c post :
  balanced_from d (pre ++ c :: post) = true →
  0 <= d → 0 <= d + net_open pre ∧ 0 <= d + net_open pre + delta c.
Proof.
  revert d. induction pre as [|a pre IH]; intros d Hb Hd; simpl in Hb.
  - apply andb_prop in Hb as [H1 _]. apply Z.leb_le in H1. simpl. lia.
  - apply andb_prop in Hb as [H1 H2]. apply Z.leb_le in H1.
    specialize (IH _ H2 H1). simpl net_open. lia.
Qed.

Lemma nesting_below_depth hi d pre c post :
  nesting_below hi d (pre ++ c :: post) = true →
  d < hi → d + net_open pre < hi ∧ d + net_open pre + delta c < hi.
Proof.
  revert d. induction pre as [|a pre IH]; intros d Hb Hd; simpl in Hb.
  - apply andb_prop in Hb as [H1 _]. apply Z.ltb_lt in H1. simpl. lia.
  - apply andb_prop in Hb as [H1 H2]. apply Z.ltb_lt in H1.
    specialize (IH _ H2 H1). simpl net_open. lia.
Qed.

Lemma balanced_from_enters n d rest :
  0 <= d →
  balanced_from d (replicate n EnterScope ++ rest)
  = balanced_from (d + Z.of_nat n) rest.
Proof.
  revert d. induction n as [|n IH]; intros d Hd.
  - simpl. f_equal. lia.
  - simpl replicate. simpl app. simpl balanced_from.
    rewrite IH by lia.
    replace (0 <=? d + 1) with true by (symmetry; apply Z.leb_le; lia).
    simpl. f_equal. lia.
Qed.

Lemma balanced_from_leaves n :
  balanced_from (Z.of_nat n) (replicate n LeaveScope) = true.
Proof.
  induction n as [|n IH]; [reflexivity|].
  simpl replicate. simpl balanced_from.
  replace (Z.of_nat (S n) + -1) with (Z.of_nat n) by lia.
  rewrite IH. apply andb_true_intro. split; [apply Z.leb_le; lia | reflexivity].
Qed.


Lemma balanced_from_total d calls :
  balanced_from d calls = true → 0 <= d → d + net_open calls = 0.
Proof.
  revert d. induction calls as [|c calls IH]; intros d Hb Hd; simpl in Hb.
  - apply Z.eqb_eq in Hb. simpl. lia.
  - apply andb_prop in Hb as [H1 H2]. apply Z.leb_le in H1.
    specialize (IH _ H2 H1). simpl net_open. lia.
Qed.

Lemma add_line_fst text g : fst (add_line text g) = line_no_ g.
Proof. reflexivity. Qed.

Lemma line_no_after_lines n text g :
  in_range g →
  line_no_ (run (replicate n (AddLine text)) g) = wrap (line_no_ g + Z.of_nat n).
Proof. intros Hg. rewrite line_no_run, lines_added_replicate by exact Hg. reflexivity. Qed.

Lemma indent_after_enters n g :
  in_range g →
  indent_ (run (replicate n EnterScope) g) = wrap (indent_ g + 4 * Z.of_nat n).
Proof. intros Hg. rewrite indent_run, net_open_replicate_enter by exact Hg. reflexivity. Qed.

Lemma balanced_nest n text :
  balanced (replicate n EnterScope ++ AddLine text :: replicate n LeaveScope) = true.
Proof.
  unfold balanced. rewrite balanced_from_enters by lia.
  cbn [balanced_from delta]. rewrite Z.add_0_l, Z.add_0_r, balanced_from_leaves.
  apply andb_true_intro. split; [apply Z.leb_le; lia | reflexivity].
Qed.


(** C4 (amended): on a new generator, whatever calls came before, the
    call of [add_line] that is the k-th one returns k, as long as k is
    below 2^32: the numbers start at 1 and go up by one per call without
    gaps or reuse. *)
Theorem add_line_returns_call_number calls text :
  lines_added calls + 1 < UINT_MODULUS →
  fst (add_line text (run calls init)) = lines_added calls + 1.
Proof.
  intros Hk. rewrite add_line_fst, line_no_run by apply init_in_range.
  assert (0 <= lines_added calls) as Hpos.
  { clear Hk. induction calls as [|c calls IH]; simpl; [lia|]. destruct c; lia. }
  change (line_no_ init) with 1. rewrite wrap_small; lia.
Qed.

Lemma add_line_returns_call_number_witness :
  fst (add_line "c" (run [AddLine "a"; EnterScope; AddLine "b"] init)) = 3.
Proof.
  apply (add_line_returns_call_number [AddLine "a"; EnterScope; AddLine "b"] "c").
  vm_compute. reflexivity.
Defined.

(** C4 as stated fails at k = 2^32: after 2^32 - 1 lines the counter,
    an [unsigned], has wrapped, and the next call returns 0. *)
Lemma add_line_number_wraps :
  let calls := replicate (Z.to_nat 4294967295) (AddLine "") in
  lines_added calls + 1 = 4294967296 ∧
  fst (add_line "" (run calls init)) = 0.
Proof.
  pose proof (lines_added_replicate (Z.to_nat 4294967295) "") as Hn.
  pose proof (line_no_after_lines (Z.to_nat 4294967295) "" init init_in_range) as Hl.
  rewrite Z2Nat.id in Hn, Hl by discriminate.
  intros calls. split.
  - subst calls. rewrite Hn. reflexivity.
  - rewrite add_line_fst. subst calls. rewrite Hl. reflexivity.
Qed.

(** C9 (amended): in a balanced sequence of calls on a new generator
    whose nesting stays below 2^30, at every call the indentation is
    4 times the number of open scopes and not negative; [enter_scope]
    raises it by 4, [leave_scope] lowers it by 4, and a line appended
    there is prefixed by exactly that many spaces.  At the end of the
    sequence the indentation is 0 again. *)
Theorem indentation_follows_open_scopes pre c post :
  balanced (pre ++ c :: post) = true →
  nesting_below (2 ^ 30) 0 (pre ++ c :: post) = true →
  let g := run pre init in
  indent_ g = 4 * net_open pre ∧
  0 <= indent_ g ∧
  match c with
  | EnterScope => indent_ (enter_scope g) = indent_ g + 4
  | LeaveScope =>
      indent_ (leave_scope g) = indent_ g - 4 ∧ 0 <= indent_ (leave_scope g)
  | AddLine text =>
      source_code_ (snd (add_line text g))
      = source_code_ g +:+ spaces (Z.to_nat (4 * net_open pre))
          +:+ text +:+ newline
      ∧ indent_ (snd (add_line text g)) = indent_ g
  end ∧
  indent_ (run (pre ++ c :: post) init) = 0.
Proof.
  intros Hb Hn g.
  destruct (balanced_from_depth 0 pre c post Hb) as [Hlo Hlo']; [lia|].
  destruct (nesting_below_depth _ 0 pre c post Hn) as [Hhi Hhi']; [lia|].
  assert (indent_ g = 4 * net_open pre) as Hg.
  { subst g. rewrite indent_run by apply init_in_range.
    change (indent_ init) with 0. apply wrap_small. unfold UINT_MODULUS. lia. }
  split; [exact Hg|]. split; [lia|]. split.
  - destruct c as [text| |]; simpl in Hlo', Hhi'.
    + split; [|reflexivity]. simpl. rewrite Hg. reflexivity.
    + simpl. rewrite Hg. apply wrap_small. unfold UINT_MODULUS. lia.
    + simpl. rewrite Hg, wrap_small; [lia|]. unfold UINT_MODULUS. lia.
  - rewrite indent_run by apply init_in_range.
    pose proof (balanced_from_total 0 _ Hb) as Ht.
    change (indent_ init) with 0. rewrite Z.add_0_l in *.
    rewrite Ht by lia. reflexivity.
Qed.

Lemma indentation_follows_open_scopes_witness :
  let g := run [EnterScope; EnterScope] init in
  indent_ g = 8 ∧
  source_code_ (snd (add_line "x" g)) = source_code_ g +:+ "        x" +:+ newline.
Proof.
  pose proof (indentation_follows_open_scopes
                [EnterScope; EnterScope] (AddLine "x") [LeaveScope; LeaveScope]
                eq_refl eq_refl) as H.
  simpl in H. destruct H as (H1 & _ & (H2 & _) & _).
  split; [exact H1 | exact H2].
Defined.

(** C9 as stated fails for a balanced sequence that nests 2^30 deep:
    the indentation, an [unsigned], has wrapped to 0 where 4 times the
    number of open scopes is 2^32. *)
Lemma indentation_wraps_at_depth_2_30 :
  let pre := replicate (Z.to_nat 1073741824) EnterScope in
  let post := replicate (Z.to_nat 1073741824) LeaveScope in
  balanced (pre ++ AddLine "x" :: post) = true ∧
  4 * net_open pre = 4294967296 ∧
  indent_ (run pre init) = 0.
Proof.
  pose proof (net_open_replicate_enter (Z.to_nat 1073741824)) as Hn.
  pose proof (indent_after_enters (Z.to_nat 1073741824) init init_in_range) as Hi.
  rewrite Z2Nat.id in Hn, Hi by discriminate.
  intros pre post. split; [|split].
  - apply balanced_nest.
  - subst pre. rewrite Hn. reflexivity.
  - subst pre. rewrite Hi. reflexivity.
Qed.

(** C10: [leave_scope] on a generator whose indentation is 0 performs no
    check and reports nothing: the indentation, an [unsigned], wraps to
    4294967292 = 2^32 - 4, which is not negative, and the rest of the
    generator is untouched. *)
Theorem leave_scope_at_zero_wraps g :
  indent_ g = 0 →
  indent_ (leave_scope g) = 4294967292 ∧
  0 <= indent_ (leave_scope g) ∧
  line_no_ (leave_scope g) = line_no_ g ∧
  source_code_ (leave_scope g) = source_code_ g.
Proof.
  intros Hz. unfold leave_scope. simpl. rewrite Hz.
  repeat split. discriminate.
Qed.

Lemma leave_scope_at_zero_wraps_witness :
  indent_ (leave_scope init) = 4294967292.
Proof. apply (leave_scope_at_zero_wraps init). reflexivity. Defined.

End source_code_generator_facts.

(** * Properties of the function builder *)

Section builder_facts.

Local Ltac keep_stages :=
  cbn -[function_builder.open_function function_builder.open_body
        function_builder.close_body set_dbg_scope].

Lemma create_function_runs_body this R Args name fb w mb :
  builders w !! this = Some mb →
  context_ok this w →
  create_function this R Args name fb w =
    match fb (function_builder.argument_values (length (module_ mb)) Args)
             (body_world this R Args name mb w) with
    | Done _ w2 =>
        match builders w2 !! this with
        | Some mb2 =>
            Done {| fr_name := name; function_ := length (module_ mb) |}
                 (end_world this (dbg_scope_ mb) mb2 w w2)
        | None => Fail InvalidPointer
        end
    | Fail e => Fail e
    | Raised w2 => Raised w2
    end.
Proof.
  intros Hmb Hctx.
  unfold create_function, mbind, M_bind, get_current_builder, assert.
  assert (bool_decide (current_builder w = Some this)
          || bool_decide (current_builder w = None) = true) as ->.
  { destruct Hctx as [-> | ->]; [|rewrite bool_decide_eq_true_2 by done; done].
    rewrite (bool_decide_eq_true_2 (None = None)) by done. apply orb_true_r. }
  unfold set_current_builder, function_builder.call, function_builder.call_builder,
    mbind, M_bind, mret, M_ret, get_current_builder, load, store, body_world.
  keep_stages. rewrite Hmb.
  pose proof (eq_refl : fst (function_builder.open_function R Args name mb)
                        = (length (module_ mb), dbg_scope_ mb)) as Hopen.
  destruct (function_builder.open_function R Args name mb) as [[fn parent] mb1].
  simpl in Hopen. injection Hopen as -> ->.
  repeat (cbn -[function_builder.open_body function_builder.close_body
                 set_dbg_scope];
          rewrite ?Hmb, ?lookup_insert_eq, ?insert_insert_eq).
  destruct (fb _ _) as [[] w2|e|w2]; [|done..].
  destruct (builders w2 !! this) as [mb2|] eqn:H2; [|done].
  rewrite H2.
  repeat (cbn -[function_builder.open_body function_builder.close_body
                 set_dbg_scope];
          rewrite ?lookup_insert_eq, ?insert_insert_eq).
  done.
Qed.

(** ** What [open_function] and [open_body] leave behind *)

Lemma alter_last {A} (g : A → A) (l : list A) (x : A) :
  alter g (length l) (l ++ [x]) = l ++ [g x].
Proof. by rewrite alter_app_r_alt, Nat.sub_diag. Qed.

Lemma lookup_last {A} (l : list A) (x : A) : (l ++ [x]) !! length l = Some x.
Proof. apply list_lookup_middle. reflexivity. Qed.

Lemma open_function_eq R Args name mb :
  function_builder.open_function R Args name mb =
  (length (module_ mb), dbg_scope_ mb,
   {| module_ := module_ mb ++ [opened R Args name mb];
      ir_builder_ := {| llvm.current_debug_location := None;
                        llvm.insert_point := Some (length (module_ mb), 0%nat) |};
      source_code_ := source_code_ mb;
      source_file_ := source_file_ mb;
      dbg_builder_ := dbg_builder_ mb ++ [opened_subprogram R Args name mb];
      dbg_file_ := dbg_file_ mb;
      dbg_scope_ := llvm.DISubprogram (length (dbg_builder_ mb)) |}).
Proof.
  unfold function_builder.open_function, llvm.Function_Create,
    llvm.createFunction, llvm.BasicBlock_Create, llvm.setSubprogram,
    llvm.SetCurrentDebugLocation, llvm.SetInsertPoint, opened, opened_subprogram.
  cbn [set_module set_dbg_builder set_dbg_scope set_ir_builder module_
       dbg_builder_ dbg_scope_ dbg_file_ ir_builder_ source_code_ source_file_
       llvm.insert_point llvm.current_debug_location].
  rewrite !alter_last, lookup_last. cbn. rewrite length_fmap. reflexivity.
Qed.

(** Naming the arguments touches the argument names of [fn] only. *)
Lemma prepare_arguments_eq fn idxs mb :
  foldl (λ mb idx, function_builder.prepare_argument fn idx mb) mb idxs
  = set_module (alter (named_arguments idxs) fn (module_ mb)) mb.
Proof.
  revert mb. induction idxs as [|i idxs IH]; intros mb.
  - cbn [foldl]. rewrite list_alter_id; [by destruct mb|]. by intros [].
  - cbn [foldl]. rewrite IH.
    unfold function_builder.prepare_argument, llvm.Argument_setName.
    cbn [module_ set_module]. rewrite list_alter_alter_eq.
    unfold set_module. cbn. f_equal.
Qed.

Lemma open_body_eq R Args name mb :
  function_builder.open_body R name Args (length (module_ mb))
    (function_builder.open_function R Args name mb).2
  = body_builder R Args name mb.
Proof.
  rewrite open_function_eq. unfold function_builder.open_body.
  rewrite prepare_arguments_eq. unfold body_builder, set_module, set_source_code.
  cbn. by rewrite alter_last.
Qed.

(** The builder at [this] when the body callback starts. *)
Lemma body_world_builder this R Args name mb w :
  builders (body_world this R Args name mb w) !! this
  = Some (body_builder R Args name mb).
Proof.
  rewrite <- open_body_eq.
  unfold body_world. rewrite open_function_eq. cbn [snd builders].
  apply lookup_insert_eq.
Qed.

Lemma body_world_current this R Args name mb w :
  current_builder (body_world this R Args name mb w) = Some this.
Proof. unfold body_world. by rewrite open_function_eq. Qed.

(** What [create_function] returns once the callback has returned. *)
Lemma create_function_returns this R Args name fb w mb w2 mb2 :
  builders w !! this = Some mb →
  context_ok this w →
  fb (function_builder.argument_values (length (module_ mb)) Args)
     (body_world this R Args name mb w) = Done tt w2 →
  builders w2 !! this = Some mb2 →
  create_function this R Args name fb w
  = Done {| fr_name := name; function_ := length (module_ mb) |}
         (end_world this (dbg_scope_ mb) mb2 w w2).
Proof.
  intros Hmb Hctx Hfb H2.
  by rewrite (create_function_runs_body _ _ _ _ _ _ _ Hmb Hctx), Hfb, H2.
Qed.

Lemma create_function_asserts this R Args name fb w :
  ¬ context_ok this w →
  create_function this R Args name fb w = Fail AssertionFailed.
Proof.
  intros Hctx.
  unfold create_function, mbind, M_bind, get_current_builder, assert.
  destruct (current_builder w) as [c|] eqn:Hc.
  - destruct (decide (c = this)) as [->|Hne].
    + exfalso. apply Hctx. right. exact Hc.
    + rewrite bool_decide_eq_false_2 by congruence.
      rewrite bool_decide_eq_false_2 by congruence. reflexivity.
  - exfalso. apply Hctx. left. exact Hc.
Qed.

(** The callback is consulted in the body world only. *)
Lemma create_function_consults this R Args name w mb
    (seen : list value → world → Prop) :
  builders w !! this = Some mb →
  context_ok this w →
  seen (function_builder.argument_values (length (module_ mb)) Args)
       (body_world this R Args name mb w) →
  consults_only (λ fb, create_function this R Args name fb w) seen.
Proof.
  intros Hmb Hctx Hseen fb fb' Heq. cbv beta.
  rewrite !(create_function_runs_body _ _ _ _ _ _ _ Hmb Hctx).
  by rewrite (Heq _ _ Hseen).
Qed.

(** A callback that stops the program stops the construction. *)
Lemma create_function_fails this R Args name w mb e :
  builders w !! this = Some mb →
  context_ok this w →
  create_function this R Args name (λ _ _, Fail e) w = Fail e.
Proof.
  intros Hmb Hctx. by rewrite (create_function_runs_body _ _ _ _ _ _ _ Hmb Hctx).
Qed.

(** An exception leaves the construction with the world of the throw. *)
Lemma create_function_raises this R Args name fb w mb w2 :
  builders w !! this = Some mb →
  context_ok this w →
  fb (function_builder.argument_values (length (module_ mb)) Args)
     (body_world this R Args name mb w) = Raised w2 →
  create_function this R Args name fb w = Raised w2.
Proof.
  intros Hmb Hctx Hfb.
  by rewrite (create_function_runs_body _ _ _ _ _ _ _ Hmb Hctx), Hfb.
Qed.

(** What a returned construction went through. *)
Lemma create_function_done this R Args name fb w mb r w' :
  builders w !! this = Some mb →
  create_function this R Args name fb w = Done r w' →
  context_ok this w ∧
  ∃ w2 mb2,
    fb (function_builder.argument_values (length (module_ mb)) Args)
       (body_world this R Args name mb w) = Done tt w2 ∧
    builders w2 !! this = Some mb2 ∧
    r = {| fr_name := name; function_ := length (module_ mb) |} ∧
    w' = end_world this (dbg_scope_ mb) mb2 w w2.
Proof.
  intros Hmb Hrun.
  assert (context_ok this w) as Hctx.
  { unfold context_ok. destruct (current_builder w) as [c|] eqn:Hc; [|by left].
    destruct (decide (c = this)) as [->|Hne]; [by right|].
    rewrite create_function_asserts in Hrun; [discriminate Hrun|].
    unfold context_ok. rewrite Hc. intros [?|?]; congruence. }
  split; [exact Hctx|].
  rewrite (create_function_runs_body _ _ _ _ _ _ _ Hmb Hctx) in Hrun.
  destruct (fb _ _) as [[] w2|e|w2]; [|discriminate Hrun..].
  destruct (builders w2 !! this) as [mb2|] eqn:H2; [|discriminate Hrun].
  injection Hrun as <- <-. by exists w2, mb2.
Qed.

(** ** The declaration text *)

Lemma string_app_cons a s1 s2 : String a s1 +:+ s2 = String a (s1 +:+ s2).
Proof. reflexivity. Qed.

Lemma string_app_nil_r s : s +:+ "" = s.
Proof. induction s as [|a s IH]; [reflexivity|]. by rewrite string_app_cons, IH. Qed.

Lemma string_app_assoc s1 s2 s3 : (s1 +:+ s2) +:+ s3 = s1 +:+ s2 +:+ s3.
Proof.
  induction s1 as [|a s1 IH]; [reflexivity|]. by rewrite !string_app_cons, IH.
Qed.

Lemma concat_argument_texts n k (Args : list host_type) :
  n = (k + length Args)%nat →
  String.concat "" (imap (λ i, function_builder.argument_text n (k + i)) Args)
  = String.concat ", "
      (imap (λ i A, type.name A +:+ " arg" +:+ pretty (k + i)%nat) Args).
Proof.
  revert k. induction Args as [|A Args IH]; intros k Hn; [reflexivity|].
  cbn [imap]. simpl in Hn.
  rewrite (imap_ext _ (λ i, function_builder.argument_text n (S k + i)) Args)
    by (intros i x _; simpl; f_equal; lia).
  rewrite (imap_ext (_ ∘ S)
             (λ i A, type.name A +:+ " arg" +:+ pretty (S k + i)%nat) Args)
    by (intros i x _; simpl; do 3 f_equal; lia).
  specialize (IH (S k) ltac:(lia)).
  unfold function_builder.argument_text at 1.
  destruct Args as [|B Args].
  - cbn [imap String.concat]. simpl in Hn.
    rewrite (proj2 (Nat.eqb_eq _ _)) by lia.
    by rewrite ?string_app_assoc, ?string_app_nil_r.
  - cbn [String.concat] in *. cbn [imap] in *.
    simpl in Hn. rewrite (proj2 (Nat.eqb_neq _ _)) by lia.
    rewrite IH. change ("" +:+ ?s) with s.
    by rewrite !string_app_assoc.
Qed.

Lemma declaration_as_described R name Args :
  function_builder.declaration R name Args = declaration_spec R name Args.
Proof.
  pose proof (concat_argument_texts (length Args) 0 Args eq_refl) as H.
  cbn [Nat.add] in H.
  unfold function_builder.declaration, declaration_spec.
  do 4 f_equal. exact (f_equal (λ s, s +:+ ") {") H).
Qed.

(** ** The claims about [return_] and [create_function] *)

(** C1: on a new builder, constructing the function [add] with return
    type i32 and two i32 arguments, whose body returns its first
    parameter, gives the listing
    [i32 add(i32 arg0, i32 arg1) {], [    return arg0;], [}],
    one line each; the debug subprogram of the function is on line 1 and
    its only instruction, the return, carries the debug location of
    line 2. *)
Theorem end_to_end_add :
  ∃ r w' mb',
    create_function 0 int32_t [int32_t; int32_t] "add" return_first
      (fresh_world "m") = Done r w' ∧
    builders w' !! 0%nat = Some mb' ∧
    source_code_generator.get (source_code_ mb')
    = "i32 add(i32 arg0, i32 arg1) {" +:+ source_code_generator.newline
        +:+ "    return arg0;" +:+ source_code_generator.newline
        +:+ "}" +:+ source_code_generator.newline ∧
    llvm.sp_line <$> function_subprogram mb' (function_ r) = Some 1%Z ∧
    function_instructions mb' (function_ r)
    = [(llvm.Ret (llvm.Argument 0 0),
        Some (llvm.DebugLoc_get 2 1 (llvm.DISubprogram 0)))].
Proof.
  eexists _, _, _. split; [vm_compute; reflexivity|].
  split; [vm_compute; reflexivity|].
  repeat split; vm_compute; reflexivity.
Qed.

(** C2: when [create_function] creates the debug subprogram of the new
    function, the line it records is the generator's current line, and
    that is the number [add_line] returns for the declaration line, the
    next line appended; the body callback starts with that declaration
    appended and one scope entered. *)
Theorem subprogram_line_is_declaration_line this R Args name w mb :
  builders w !! this = Some mb →
  context_ok this w →
  let decl := function_builder.declaration R name Args in
  ∃ mb1 sp,
    builders (body_world this R Args name mb w) !! this = Some mb1 ∧
    function_subprogram mb1 (length (module_ mb)) = Some sp ∧
    llvm.sp_line sp = source_code_generator.current_line (source_code_ mb) ∧
    fst (source_code_generator.add_line decl (source_code_ mb)) = llvm.sp_line sp ∧
    source_code_ mb1
    = source_code_generator.enter_scope
        (snd (source_code_generator.add_line decl (source_code_ mb))) ∧
    ∀ fb w2 mb2,
      fb (function_builder.argument_values (length (module_ mb)) Args)
         (body_world this R Args name mb w) = Done tt w2 →
      builders w2 !! this = Some mb2 →
      create_function this R Args name fb w
      = Done {| fr_name := name; function_ := length (module_ mb) |}
             (end_world this (dbg_scope_ mb) mb2 w w2).
Proof.
  intros Hmb Hctx decl. eexists _, _.
  split; [apply body_world_builder|].
  split; [|split; [|split; [|split]]].
  - unfold function_subprogram, body_builder. cbn [module_ dbg_builder_].
    rewrite lookup_last. cbn. apply lookup_last.
  - reflexivity.
  - reflexivity.
  - reflexivity.
  - intros fb w2 mb2. by apply create_function_returns.
Qed.

Lemma subprogram_line_is_declaration_line_witness :
  ∃ sp,
    function_subprogram
      (body_builder int32_t [int32_t; int32_t] "add" (new_module_builder "m")) 0
    = Some sp ∧
    llvm.sp_line sp = 1%Z ∧
    fst (source_code_generator.add_line
           (function_builder.declaration int32_t "add" [int32_t; int32_t])
           source_code_generator.init) = llvm.sp_line sp.
Proof.
  destruct (subprogram_line_is_declaration_line 0 int32_t [int32_t; int32_t]
              "add" (fresh_world "m") (new_module_builder "m")
              eq_refl (or_introl eq_refl))
    as (mb1 & sp & H1 & H2 & H3 & H4 & _).
  rewrite body_world_builder in H1. injection H1 as <-.
  exists sp. split; [exact H2|]. split; [exact H3 | exact H4].
Defined.

(** C3: [return_ v] appends the text [return <name>;] to the listing and
    takes the line number [add_line] returns for it; it sets the current
    debug location to that line, column 1, in the current debug scope;
    and the return instruction for the handle of [v] is inserted by the
    cursor that already holds this location, so the instruction carries
    the line of its own statement. *)
Theorem return_location_follows_listing v w b mb :
  current_builder w = Some b →
  builders w !! b = Some mb →
  let line_no :=
    fst (source_code_generator.add_line (return_text v) (source_code_ mb)) in
  let loc := llvm.DebugLoc_get line_no 1 (dbg_scope_ mb) in
  ∃ mb',
    return_ v w = Done tt {| builders := <[b := mb']> (builders w);
                             current_builder := Some b |} ∧
    line_no = source_code_generator.current_line (source_code_ mb) ∧
    source_code_ mb'
    = snd (source_code_generator.add_line (return_text v) (source_code_ mb)) ∧
    source_code_generator.get (source_code_ mb')
    = source_code_generator.get (source_code_ mb)
        +:+ source_code_generator.spaces
              (Z.to_nat (source_code_generator.indent_ (source_code_ mb)))
        +:+ ("return " +:+ name_ v +:+ ";") +:+ source_code_generator.newline ∧
    ir_builder_ mb' = llvm.SetCurrentDebugLocation (Some loc) (ir_builder_ mb) ∧
    module_ mb' = llvm.Insert (llvm.Ret (value_ v)) (ir_builder_ mb') (module_ mb) ∧
    dbg_scope_ mb' = dbg_scope_ mb ∧
    ∀ fn blk f bb,
      llvm.insert_point (ir_builder_ mb) = Some (fn, blk) →
      module_ mb !! fn = Some f →
      llvm.fn_blocks f !! blk = Some bb →
      ∃ f' bb',
        module_ mb' !! fn = Some f' ∧
        llvm.fn_blocks f' !! blk = Some bb' ∧
        llvm.bb_instructions bb'
        = llvm.bb_instructions bb ++ [(llvm.Ret (value_ v), Some loc)].
Proof.
  intros Hcur Hmb line_no loc. exists (emit_return v mb).
  split.
  { unfold return_, mbind, M_bind, get_current_builder, load, store.
    cbn -[emit_return]. rewrite Hcur, Hmb. cbn -[emit_return].
    by rewrite Hmb, Hcur. }
  do 6 (split; [reflexivity|]).
  intros fn blk f bb Hip Hf Hbb.
  unfold emit_return, llvm.CreateRet, llvm.Insert.
  cbn [source_code_generator.add_line set_module set_ir_builder set_source_code
       module_ ir_builder_ dbg_scope_ llvm.SetCurrentDebugLocation
       llvm.insert_point llvm.current_debug_location eval].
  rewrite Hip. eexists _, _.
  rewrite list_lookup_alter_eq, Hf. cbn [fmap option_fmap option_map].
  split; [reflexivity|]. cbn [llvm.with_blocks llvm.fn_blocks].
  rewrite list_lookup_alter_eq, Hbb. split; reflexivity.
Qed.

Lemma return_location_follows_listing_witness :
  ∃ mb',
    return_ {| value_ := llvm.ConstantInt 32 7; name_ := "7" |} (active_world "m")
    = Done tt {| builders := <[0%nat := mb']> (builders (active_world "m"));
                 current_builder := Some 0%nat |} ∧
    llvm.current_debug_location (ir_builder_ mb')
    = Some (llvm.DebugLoc_get 1 1 (llvm.DIFile 0)) ∧
    source_code_generator.get (source_code_ mb')
    = "return 7;" +:+ source_code_generator.newline.
Proof.
  destruct (return_location_follows_listing
              {| value_ := llvm.ConstantInt 32 7; name_ := "7" |}
              (active_world "m") 0%nat (new_module_builder "m") eq_refl eq_refl)
    as (mb' & H1 & _ & _ & H4 & H5 & _).
  exists mb'. split; [exact H1|]. split; [by rewrite H5 | exact H4].
Defined.

(** C5: constructing a function appends exactly one declaration line
    before the body callback runs and exactly one closing line [}]
    after it.  The declaration reads [<name(R)> <f>(...) {] with the
    arguments written [<name(Ai)> arg<i>], numbered by position from 0
    and joined by a comma and a space; without arguments the parentheses
    are empty. *)
Theorem one_declaration_and_one_closing_line this R Args name w mb :
  builders w !! this = Some mb →
  context_ok this w →
  let decl := function_builder.declaration R name Args in
  decl = declaration_spec R name Args ∧
  function_builder.declaration R name [] = type.name R +:+ " " +:+ name +:+ "() {" ∧
  ∃ mb1,
    builders (body_world this R Args name mb w) !! this = Some mb1 ∧
    source_code_ mb1
    = source_code_generator.enter_scope
        (snd (source_code_generator.add_line decl (source_code_ mb))) ∧
    source_code_generator.get (source_code_ mb1)
    = source_code_generator.get (source_code_ mb)
        +:+ source_code_generator.spaces
              (Z.to_nat (source_code_generator.indent_ (source_code_ mb)))
        +:+ decl +:+ source_code_generator.newline ∧
    ∀ fb w2 mb2,
      fb (function_builder.argument_values (length (module_ mb)) Args)
         (body_world this R Args name mb w) = Done tt w2 →
      builders w2 !! this = Some mb2 →
      ∃ r w' mb',
        create_function this R Args name fb w = Done r w' ∧
        builders w' !! this = Some mb' ∧
        source_code_ mb'
        = snd (source_code_generator.add_line "}"
                 (source_code_generator.leave_scope (source_code_ mb2))) ∧
        source_code_generator.get (source_code_ mb')
        = source_code_generator.get (source_code_ mb2)
            +:+ source_code_generator.spaces
                  (Z.to_nat (source_code_generator.indent_
                               (source_code_generator.leave_scope (source_code_ mb2))))
            +:+ "}" +:+ source_code_generator.newline.
Proof.
  intros Hmb Hctx decl.
  split; [apply declaration_as_described|]. split; [reflexivity|].
  exists (body_builder R Args name mb).
  split; [apply body_world_builder|]. split; [reflexivity|]. split; [reflexivity|].
  intros fb w2 mb2 Hfb H2. eexists _, _, _.
  split; [by apply (create_function_returns _ _ _ _ _ _ _ _ _ Hmb Hctx Hfb H2)|].
  split; [apply lookup_insert_eq|]. split; reflexivity.
Qed.

Lemma one_declaration_and_one_closing_line_witness :
  ∃ r w' mb',
    create_function 0 void [] "noop" empty_body (fresh_world "m") = Done r w' ∧
    builders w' !! 0%nat = Some mb' ∧
    source_code_generator.get (source_code_ mb')
    = "void noop() {" +:+ source_code_generator.newline
        +:+ "}" +:+ source_code_generator.newline.
Proof.
  destruct (one_declaration_and_one_closing_line 0 void [] "noop"
              (fresh_world "m") (new_module_builder "m")
              eq_refl (or_introl eq_refl))
    as (_ & _ & mb1 & H1 & _ & _ & Hrun).
  destruct (Hrun empty_body
              (body_world 0 void [] "noop" (new_module_builder "m") (fresh_world "m"))
              mb1 eq_refl H1) as (r & w' & mb' & Hc & Hb & _ & Ht).
  exists r, w', mb'. split; [exact Hc|]. split; [exact Hb|].
  rewrite Ht. rewrite body_world_builder in H1. injection H1 as <-.
  vm_compute. reflexivity.
Defined.

(** C6: [create_function] on the builder at [this] asserts that the
    current builder is null or already [this], and aborts otherwise.
    When the assertion holds, the body callback is invoked, and only
    with [this] installed as the current builder, also when it was
    current before; and whenever the construction completes, the current
    builder is what it was before the call. *)
Theorem create_function_context this R Args name w mb :
  builders w !! this = Some mb →
  (∀ fb, ¬ context_ok this w →
         create_function this R Args name fb w = Fail AssertionFailed) ∧
  (context_ok this w →
   consults_only (λ fb, create_function this R Args name fb w)
                 (λ _ w1, current_builder w1 = Some this) ∧
   (∀ e, create_function this R Args name (λ _ _, Fail e) w = Fail e) ∧
   current_builder (body_world this R Args name mb w) = Some this ∧
   ∀ fb w2 mb2,
     fb (function_builder.argument_values (length (module_ mb)) Args)
        (body_world this R Args name mb w) = Done tt w2 →
     builders w2 !! this = Some mb2 →
     create_function this R Args name fb w
     = Done {| fr_name := name; function_ := length (module_ mb) |}
            (end_world this (dbg_scope_ mb) mb2 w w2) ∧
     current_builder (end_world this (dbg_scope_ mb) mb2 w w2)
     = current_builder w) ∧
  (∀ fb r w', create_function this R Args name fb w = Done r w' →
              current_builder w' = current_builder w).
Proof.
  intros Hmb. split; [|split].
  - intros fb Hctx. by apply create_function_asserts.
  - intros Hctx. split; [|split; [|split]].
    + apply (create_function_consults _ _ _ _ _ _ _ Hmb Hctx).
      apply body_world_current.
    + intros e. by apply (create_function_fails _ _ _ _ _ mb).
    + apply body_world_current.
    + intros fb w2 mb2 Hfb H2. split; [|reflexivity].
      by apply (create_function_returns _ _ _ _ _ _ _ _ _ Hmb Hctx Hfb H2).
  - intros fb r w' Hrun.
    destruct (create_function_done _ _ _ _ _ _ _ _ _ Hmb Hrun)
      as (_ & w2 & mb2 & _ & _ & _ & ->). reflexivity.
Qed.

Lemma create_function_context_witness :
  create_function 0 void [] "f" empty_body
    {| builders := builders (fresh_world "m"); current_builder := Some 1%nat |}
  = Fail AssertionFailed ∧
  ∃ r w',
    create_function 0 void [] "outer" nesting_body (active_world "m") = Done r w' ∧
    current_builder w' = Some 0%nat.
Proof.
  split.
  - destruct (create_function_context 0 void [] "f"
                {| builders := builders (fresh_world "m");
                   current_builder := Some 1%nat |}
                (new_module_builder "m") eq_refl) as (Hfail & _).
    apply Hfail. intros [H|H]; discriminate H.
  - destruct (create_function_context 0 void [] "outer" (active_world "m")
                (new_module_builder "m") eq_refl) as (_ & Hok & _).
    destruct (Hok (or_intror eq_refl)) as (_ & _ & _ & Hrun).
    assert (∃ w2 mb2,
      nesting_body
        (function_builder.argument_values
           (length (module_ (new_module_builder "m"))) [])
        (body_world 0 void [] "outer" (new_module_builder "m") (active_world "m"))
      = Done tt w2 ∧ builders w2 !! 0%nat = Some mb2) as (w2 & mb2 & Hb & H2).
    { eexists _, _. split; vm_compute; reflexivity. }
    destruct (Hrun nesting_body w2 mb2 Hb H2) as (Hc & Hcur).
    eexists _, _. split; [exact Hc | exact Hcur].
Defined.

(** C7 (amended): [create_function] invokes the body callback only
    with the subprogram of the new function, a child of the scope that
    was current, installed as the debug scope of the builder; and
    whenever it returns, the debug scope of the builder is the one from
    before the call, whatever builder state the callback left behind.
    When the callback is left by an exception, so is [create_function],
    in the world of the throw: nothing is restored. *)
Theorem create_function_restores_dbg_scope this R Args name w mb :
  builders w !! this = Some mb →
  context_ok this w →
  let installed (mb1 : module_builder) :=
    dbg_scope_ mb1 = llvm.DISubprogram (length (dbg_builder_ mb)) ∧
    ∃ sp, dbg_builder_ mb1 !! length (dbg_builder_ mb) = Some sp ∧
          llvm.sp_scope sp = dbg_scope_ mb in
  consults_only (λ fb, create_function this R Args name fb w)
                (λ _ w1, ∃ mb1, builders w1 !! this = Some mb1 ∧ installed mb1) ∧
  (∀ e, create_function this R Args name (λ _ _, Fail e) w = Fail e) ∧
  (∃ mb1, builders (body_world this R Args name mb w) !! this = Some mb1 ∧
          installed mb1) ∧
  (∀ fb w2 mb2,
     fb (function_builder.argument_values (length (module_ mb)) Args)
        (body_world this R Args name mb w) = Done tt w2 →
     builders w2 !! this = Some mb2 →
     ∃ mb',
       create_function this R Args name fb w
       = Done {| fr_name := name; function_ := length (module_ mb) |}
              (end_world this (dbg_scope_ mb) mb2 w w2) ∧
       builders (end_world this (dbg_scope_ mb) mb2 w w2) !! this = Some mb' ∧
       dbg_scope_ mb' = dbg_scope_ mb) ∧
  (∀ fb r w', create_function this R Args name fb w = Done r w' →
              ∃ mb', builders w' !! this = Some mb' ∧
                     dbg_scope_ mb' = dbg_scope_ mb) ∧
  (∀ fb w2,
     fb (function_builder.argument_values (length (module_ mb)) Args)
        (body_world this R Args name mb w) = Raised w2 →
     create_function this R Args name fb w = Raised w2).
Proof.
  intros Hmb Hctx installed.
  assert (∃ mb1, builders (body_world this R Args name mb w) !! this = Some mb1
                 ∧ installed mb1) as Hbody.
  { exists (body_builder R Args name mb). split; [apply body_world_builder|].
    split; [reflexivity|].
    exists (opened_subprogram R Args name mb). split; [apply lookup_last|reflexivity]. }
  split; [|split; [|split; [|split; [|split]]]].
  - by apply (create_function_consults _ _ _ _ _ _ _ Hmb Hctx).
  - intros e. by apply (create_function_fails _ _ _ _ _ mb).
  - exact Hbody.
  - intros fb w2 mb2 Hfb H2. eexists.
    split; [by apply (create_function_returns _ _ _ _ _ _ _ _ _ Hmb Hctx Hfb H2)|].
    split; [apply lookup_insert_eq | reflexivity].
  - intros fb r w' Hrun.
    destruct (create_function_done _ _ _ _ _ _ _ _ _ Hmb Hrun)
      as (_ & w2 & mb2 & _ & _ & _ & ->).
    eexists. split; [apply lookup_insert_eq | reflexivity].
  - intros fb w2. by apply create_function_raises.
Qed.

Lemma create_function_restores_dbg_scope_witness :
  ∃ r w' mb',
    create_function 0 void [] "f" scribbling_body (fresh_world "m") = Done r w' ∧
    builders w' !! 0%nat = Some mb' ∧
    dbg_scope_ mb' = llvm.DIFile 0.
Proof.
  destruct (create_function_restores_dbg_scope 0 void [] "f" (fresh_world "m")
              (new_module_builder "m") eq_refl (or_introl eq_refl))
    as (_ & _ & _ & Hrun & _).
  assert (∃ w2 mb2,
    scribbling_body
      (function_builder.argument_values
         (length (module_ (new_module_builder "m"))) [])
      (body_world 0 void [] "f" (new_module_builder "m") (fresh_world "m"))
    = Done tt w2 ∧ builders w2 !! 0%nat = Some mb2
    ∧ dbg_scope_ mb2 = llvm.DIFile 7) as (w2 & mb2 & Hb & H2 & _).
  { eexists _, _. repeat split; vm_compute; reflexivity. }
  destruct (Hrun scribbling_body w2 mb2 Hb H2) as (mb' & Hc & Hb' & Hs).
  eexists _, _, mb'. split; [exact Hc|]. split; [exact Hb' | exact Hs].
Defined.

(** C7 as stated fails for a callback that throws: the exception
    leaves [create_function] before the saved scope is put back, and the
    builder keeps the subprogram of the new function as its debug scope
    where it had the debug file before the call. *)
Lemma throwing_body_leaves_scope_installed :
  ∃ w' mb',
    builders (fresh_world "m") !! 0%nat = Some (new_module_builder "m") ∧
    dbg_scope_ (new_module_builder "m") = llvm.DIFile 0 ∧
    create_function 0 void [] "f" throwing_body (fresh_world "m") = Raised w' ∧
    builders w' !! 0%nat = Some mb' ∧
    dbg_scope_ mb' = llvm.DISubprogram 0 ∧
    dbg_scope_ mb' ≠ dbg_scope_ (new_module_builder "m").
Proof.
  eexists _, _. split; [reflexivity|]. split; [reflexivity|].
  split; [vm_compute; reflexivity|]. split; [vm_compute; reflexivity|].
  split; [reflexivity | discriminate].
Qed.

End builder_facts.

(** * Further properties of the source code generator *)

Module scope_facts.
Import source_code_generator source_code_generator_facts.
Local Open Scope Z_scope.

(** X1: on a generator whose counters are values of [unsigned],
    [enter_scope] and [leave_scope] undo each other in both orders, also
    when the indentation wraps in between. *)
Theorem enter_leave_inverse g :
  in_range g →
  leave_scope (enter_scope g) = g ∧ enter_scope (leave_scope g) = g.
Proof.
  intros [_ Hi]. destruct g as [text line indent]. simpl in Hi.
  unfold leave_scope, enter_scope. simpl.
  replace (wrap (indent + 4) - 4) with (wrap (indent + 4) + -4) by lia.
  replace (indent - 4) with (indent + -4) by lia.
  rewrite !wrap_add_l.
  replace (indent + 4 + -4) with indent by lia.
  replace (indent + -4 + 4) with indent by lia.
  rewrite wrap_small by exact Hi. split; reflexivity.
Qed.

Lemma enter_leave_inverse_witness :
  leave_scope (enter_scope init) = init ∧ enter_scope (leave_scope init) = init.
Proof. apply (enter_leave_inverse init). split; vm_compute; split; congruence. Defined.

(** X2: after any sequence of calls the indentation is the starting one
    plus 4 per scope entered minus 4 per scope left, modulo 2^32; so a
    sequence that enters as often as it leaves, in whatever order, ends
    at the indentation it started with, and no call but [enter_scope]
    and [leave_scope] moves it. *)
Theorem indentation_after_calls calls g :
  in_range g →
  indent_ (run calls g) = wrap (indent_ g + 4 * net_open calls) ∧
  (net_open calls = 0 → indent_ (run calls g) = indent_ g).
Proof.
  intros Hg. pose proof (indent_run calls g Hg) as H. split; [exact H|].
  intros Hz. rewrite H, Hz, Z.mul_0_r, Z.add_0_r. apply wrap_small, Hg.
Qed.

Lemma indentation_after_calls_witness :
  indent_ (run [LeaveScope; AddLine "x"; EnterScope] init) = 0.
Proof.
  destruct (indentation_after_calls [LeaveScope; AddLine "x"; EnterScope] init)
    as [_ H].
  - split; vm_compute; split; congruence.
  - apply H. reflexivity.
Defined.

End scope_facts.

(** * The registry of host types *)

(** X3: the debug type of a host type bears the name the listing uses
    for it, [void] alone has no debug type, and distinct host types have
    distinct, non-empty names. *)
Theorem debug_type_named_as_listed T :
  match type.dbg T with
  | Some (llvm.DIBasicType n _ _) => n = type.name T ∧ T ≠ void
  | None => T = void
  end ∧
  type.name T ≠ "" ∧
  ∀ T', type.name T = type.name T' → T = T'.
Proof.
  destruct T; (split; [|split]); try done.
  - by intros [].
  - by intros [].
Qed.

(** * Further properties of the function builder *)

Section construction_facts.

(** ** The arguments *)

Lemma named_lookup (g : nat → string) idxs (names : list string) i :
  foldl (λ names idx, <[idx := g idx]> names) names idxs !! i
  = if decide (i ∈ idxs) then (λ _, g i) <$> names !! i else names !! i.
Proof.
  revert names. induction idxs as [|j idxs IH]; intros names; cbn [foldl].
  - rewrite decide_False by apply not_elem_of_nil. reflexivity.
  - rewrite IH. destruct (decide (i = j)) as [->|Hne].
    + rewrite (decide_True (P := j ∈ j :: idxs)) by (apply elem_of_cons; by left).
      destruct (names !! j) as [x|] eqn:Hx.
      * rewrite list_lookup_insert_eq by (by eapply lookup_lt_Some).
        by destruct (decide (j ∈ idxs)).
      * rewrite list_insert_ge by (by apply lookup_ge_None). rewrite Hx.
        by destruct (decide (j ∈ idxs)).
    + rewrite list_lookup_insert_ne by done.
      destruct (decide (i ∈ idxs)).
      * rewrite (decide_True (P := i ∈ j :: idxs)); [done|].
        apply elem_of_cons. by right.
      * rewrite (decide_False (P := i ∈ j :: idxs)); [done|].
        intros [?|?]%elem_of_cons; done.
Qed.

Lemma argument_names (n : nat) :
  foldl (λ names idx, <[idx := "arg" +:+ pretty idx]> names)
        (replicate n "") (seq 0 n)
  = (λ i, "arg" +:+ pretty i) <$> seq 0 n.
Proof.
  apply list_eq. intros i. rewrite named_lookup, list_lookup_fmap.
  destruct (decide (i < n)%nat) as [Hlt|Hge].
  - rewrite decide_True by (apply elem_of_seq; lia).
    rewrite lookup_replicate_2 by done. by rewrite lookup_seq_lt.
  - rewrite decide_False by (rewrite elem_of_seq; lia).
    rewrite (proj1 (lookup_replicate_None n "" i)) by lia.
    by rewrite lookup_seq_ge by lia.
Qed.

Lemma argument_values_names fn (Args : list host_type) :
  name_ <$> function_builder.argument_values fn Args
  = (λ i, "arg" +:+ pretty i) <$> seq 0 (length Args).
Proof.
  unfold function_builder.argument_values.
  apply list_eq. intros i. rewrite !list_lookup_fmap, list_lookup_imap.
  destruct (Args !! i) as [A|] eqn:HA.
  - rewrite lookup_seq_lt by (by eapply lookup_lt_Some). reflexivity.
  - rewrite lookup_seq_ge by (by apply lookup_ge_None). reflexivity.
Qed.

(** X5: [create_function] invokes the body callback, and only with
    one typed value per argument type, in order, the i-th referring to
    argument i of the new function and displayed as [arg<i>], and with
    the backend arguments of that function bearing these same names. *)
Theorem arguments_named_like_values this R Args name w mb :
  builders w !! this = Some mb →
  context_ok this w →
  let fn := length (module_ mb) in
  consults_only (λ fb, create_function this R Args name fb w)
    (λ args w1,
       length args = length Args ∧
       (∀ i v, args !! i = Some v →
               value_ v = llvm.Argument fn i ∧ name_ v = "arg" +:+ pretty i) ∧
       ∃ mb1 f,
         builders w1 !! this = Some mb1 ∧
         module_ mb1 !! fn = Some f ∧
         llvm.fn_arg_names f = name_ <$> args) ∧
  ∀ e, create_function this R Args name (λ _ _, Fail e) w = Fail e.
Proof.
  intros Hmb Hctx fn. split.
  - apply (create_function_consults _ _ _ _ _ _ _ Hmb Hctx). split; [|split].
    + unfold function_builder.argument_values. apply length_imap.
    + intros i v Hv. unfold function_builder.argument_values in Hv.
      rewrite list_lookup_imap in Hv. destruct (Args !! i); [|done].
      injection Hv as <-. split; reflexivity.
    + eexists _, _. split; [apply body_world_builder|].
      split; [apply lookup_last|].
      rewrite argument_values_names. unfold named_arguments, opened.
      cbn [llvm.with_arg_names llvm.fn_arg_names]. apply argument_names.
  - intros e. by apply (create_function_fails _ _ _ _ _ mb).
Qed.

Lemma arguments_named_like_values_witness :
  create_function 0 int32_t [int32_t; int32_t] "add" (expecting 2 return_first)
    (fresh_world "m")
  = create_function 0 int32_t [int32_t; int32_t] "add" return_first
      (fresh_world "m").
Proof.
  destruct (arguments_named_like_values 0 int32_t [int32_t; int32_t] "add"
              (fresh_world "m") (new_module_builder "m")
              eq_refl (or_introl eq_refl)) as (Hc & _).
  apply Hc. intros args w1 (Hlen & _). unfold expecting.
  destruct (decide (length args = 2%nat)) as [_|Hne]; [reflexivity|].
  exfalso. apply Hne. exact Hlen.
Defined.



(** X7: when [create_function] returns, the callback has run once, in
    the body world, and has returned; the function reference carries the
    given name and the handle of the new function; at [this] the module,
    the cursor, the debug builder and the debug file are exactly as the
    callback left them, so the cursor is not moved back to where it was
    before the call; every other builder is as the callback left it. *)
Theorem create_function_frame this R Args name fb w mb r w' :
  builders w !! this = Some mb →
  context_ok this w →
  create_function this R Args name fb w = Done r w' →
  ∃ w2 mb2 mb',
    fb (function_builder.argument_values (length (module_ mb)) Args)
       (body_world this R Args name mb w) = Done tt w2 ∧
    builders w2 !! this = Some mb2 ∧
    builders w' !! this = Some mb' ∧
    r = {| fr_name := name; function_ := length (module_ mb) |} ∧
    module_ mb' = module_ mb2 ∧
    ir_builder_ mb' = ir_builder_ mb2 ∧
    dbg_builder_ mb' = dbg_builder_ mb2 ∧
    dbg_file_ mb' = dbg_file_ mb2 ∧
    ∀ a, a ≠ this → builders w' !! a = builders w2 !! a.
Proof.
  intros Hmb Hctx Hrun.
  rewrite (create_function_runs_body _ _ _ _ _ _ _ Hmb Hctx) in Hrun.
  destruct (fb _ _) as [[] w2|e|w2']; [|discriminate Hrun..].
  destruct (builders w2 !! this) as [mb2|] eqn:H2; [|discriminate Hrun].
  injection Hrun as <- <-.
  exists w2, mb2, (set_dbg_scope (dbg_scope_ mb) (function_builder.close_body mb2)).
  split; [reflexivity|]. split; [exact H2|].
  split; [apply lookup_insert_eq|]. do 5 (split; [reflexivity|]).
  intros a Ha. unfold end_world. cbn [builders]. by apply lookup_insert_ne.
Qed.

Lemma create_function_frame_witness :
  ∃ r w' mb',
    create_function 0 int32_t [int32_t; int32_t] "add" return_first
      (fresh_world "m") = Done r w' ∧
    builders w' !! 0%nat = Some mb' ∧
    llvm.insert_point (ir_builder_ mb') = Some (0%nat, 0%nat).
Proof.
  assert (∃ r w',
    create_function 0 int32_t [int32_t; int32_t] "add" return_first
      (fresh_world "m") = Done r w') as (r & w' & Hrun).
  { eexists _, _. vm_compute. reflexivity. }
  destruct (create_function_frame 0 int32_t [int32_t; int32_t] "add" return_first
              (fresh_world "m") (new_module_builder "m") r w'
              eq_refl (or_introl eq_refl) Hrun)
    as (w2 & mb2 & mb' & Hfb & H2 & H' & _ & _ & Hir & _).
  exists r, w', mb'. split; [exact Hrun|]. split; [exact H'|].
  rewrite Hir. vm_compute in Hfb. injection Hfb as <-.
  vm_compute in H2. injection H2 as <-. reflexivity.
Defined.

(** ** Bodies made of return statements *)

Lemma return_run v w b mb :
  current_builder w = Some b →
  builders w !! b = Some mb →
  return_ v w = Done tt {| builders := <[b := emit_return v mb]> (builders w);
                           current_builder := Some b |}.
Proof.
  intros Hcur Hmb.
  unfold return_, mbind, M_bind, get_current_builder, load, store.
  cbn -[emit_return]. rewrite Hcur, Hmb. cbn -[emit_return].
  by rewrite Hmb, Hcur.
Qed.

Lemma returns_run vs w b mb :
  current_builder w = Some b →
  builders w !! b = Some mb →
  returns vs w = Done tt {| builders := <[b := emit_returns vs mb]> (builders w);
                            current_builder := Some b |}.
Proof.
  revert w mb. induction vs as [|v vs IH]; intros w mb Hcur Hmb.
  - cbn. destruct w as [bs cur]. cbn in *. subst cur.
    by rewrite insert_id.
  - cbn [returns]. unfold mbind, M_bind.
    rewrite (return_run v w b mb Hcur Hmb).
    rewrite (IH _ (emit_return v mb)); [|reflexivity|apply lookup_insert_eq].
    cbn [builders]. by rewrite insert_insert_eq.
Qed.

Lemma emit_returns_spec vs mb m f bb :
  module_ mb = m ++ [f] →
  llvm.fn_blocks f = [bb] →
  llvm.insert_point (ir_builder_ mb) = Some (length m, 0%nat) →
  source_code_generator.in_range (source_code_ mb) →
  let mb' := emit_returns vs mb in
  module_ mb'
  = m ++ [llvm.with_blocks
            [{| llvm.bb_name := llvm.bb_name bb;
                llvm.bb_instructions :=
                  llvm.bb_instructions bb
                  ++ return_instructions
                       (source_code_generator.line_no_ (source_code_ mb))
                       (dbg_scope_ mb) vs |}] f] ∧
  source_code_ mb'
  = source_code_generator.run
      (source_code_generator.AddLine <$> (return_text <$> vs)) (source_code_ mb) ∧
  llvm.insert_point (ir_builder_ mb') = Some (length m, 0%nat) ∧
  dbg_scope_ mb' = dbg_scope_ mb ∧
  dbg_builder_ mb' = dbg_builder_ mb ∧
  dbg_file_ mb' = dbg_file_ mb.
Proof.
  revert mb f bb. induction vs as [|v vs IH]; intros mb f bb Hm Hf Hip Hg.
  - cbn. rewrite app_nil_r. repeat split; try done.
    rewrite Hm. do 2 f_equal. destruct f, bb; cbn in *. by subst.
  - cbn [emit_returns foldl].
    set (mb1 := emit_return v mb).
    assert (module_ mb1
            = m ++ [llvm.with_blocks
                      [{| llvm.bb_name := llvm.bb_name bb;
                          llvm.bb_instructions :=
                            llvm.bb_instructions bb
                            ++ [(llvm.Ret (value_ v),
                                 Some (llvm.DebugLoc_get
                                         (source_code_generator.line_no_ (source_code_ mb))
                                         1 (dbg_scope_ mb)))] |}] f]) as Hm1.
    { subst mb1. unfold emit_return, llvm.CreateRet, llvm.Insert.
      cbn [source_code_generator.add_line set_module set_ir_builder
           set_source_code module_ ir_builder_ dbg_scope_
           llvm.SetCurrentDebugLocation llvm.insert_point
           llvm.current_debug_location eval].
      rewrite Hip, Hm, alter_last. cbn [llvm.with_blocks llvm.fn_blocks].
      rewrite Hf. reflexivity. }
    destruct (IH mb1 _ _ Hm1 eq_refl) as (H1 & H2 & H3 & H4 & H5 & H6).
    { subst mb1. cbn. exact Hip. }
    { subst mb1. cbn. destruct Hg as [Hl Hi].
      split; [apply source_code_generator_facts.wrap_range | exact Hi]. }
    fold (emit_returns vs mb1).
    split; [|split; [|split; [|split; [|split]]]].
    + rewrite H1. do 2 f_equal. unfold llvm.with_blocks. cbn. f_equal. f_equal.
      f_equal. rewrite <- app_assoc. f_equal.
      unfold return_instructions. cbn [imap app]. f_equal.
      * rewrite Z.add_0_r, source_code_generator_facts.wrap_small by apply Hg.
        reflexivity.
      * apply imap_ext. intros i x _. cbn. do 3 f_equal.
        subst mb1. cbn. rewrite source_code_generator_facts.wrap_add_l.
        f_equal. lia.
    + rewrite H2. reflexivity.
    + rewrite H3. reflexivity.
    + rewrite H4. reflexivity.
    + rewrite H5. reflexivity.
    + rewrite H6. reflexivity.
Qed.

(** The construction of a function whose body is [returns vs]. *)
Lemma returns_construction this R Args name vs w mb :
  builders w !! this = Some mb →
  context_ok this w →
  source_code_generator.in_range (source_code_ mb) →
  ∃ w' mb',
    create_function this R Args name (λ _, returns vs) w
    = Done {| fr_name := name; function_ := length (module_ mb) |} w' ∧
    builders w' !! this = Some mb' ∧
    current_builder w' = current_builder w ∧
    module_ mb'
    = module_ mb
      ++ [llvm.with_blocks
            [{| llvm.bb_name := "entry";
                llvm.bb_instructions :=
                  return_instructions
                    (wrap (source_code_generator.line_no_ (source_code_ mb) + 1))
                    (llvm.DISubprogram (length (dbg_builder_ mb))) vs |}]
            (named_arguments (seq 0 (length Args)) (opened R Args name mb))] ∧
    llvm.insert_point (ir_builder_ mb') = Some (length (module_ mb), 0%nat) ∧
    source_code_ mb'
    = source_code_generator.run (construction_calls R name Args vs) (source_code_ mb) ∧
    dbg_builder_ mb' = dbg_builder_ mb ++ [opened_subprogram R Args name mb] ∧
    dbg_file_ mb' = dbg_file_ mb ∧
    dbg_scope_ mb' = dbg_scope_ mb.
Proof.
  intros Hmb Hctx Hg.
  pose proof (body_world_builder this R Args name mb w) as Hb.
  pose proof (body_world_current this R Args name mb w) as Hc.
  pose proof (returns_run vs _ _ _ Hc Hb) as Hrun.
  destruct (emit_returns_spec vs (body_builder R Args name mb) (module_ mb)
              (named_arguments (seq 0 (length Args)) (opened R Args name mb))
              {| llvm.bb_name := "entry"; llvm.bb_instructions := [] |}
              eq_refl eq_refl eq_refl)
    as (H1 & H2 & H3 & H4 & H5 & H6).
  { cbn. destruct Hg as [Hl Hi].
    split; apply source_code_generator_facts.wrap_range. }
  eexists _, _. split.
  { apply (create_function_returns this R Args name (λ _, returns vs) w mb _
             (emit_returns vs (body_builder R Args name mb)) Hmb Hctx Hrun).
    cbn [builders]. apply lookup_insert_eq. }
  split; [apply lookup_insert_eq|]. split; [reflexivity|].
  cbn [set_dbg_scope function_builder.close_body set_source_code module_
       ir_builder_ source_code_ dbg_builder_ dbg_file_ dbg_scope_].
  rewrite H1, H2, H3, H5, H6. repeat split.
  unfold construction_calls.
  rewrite (source_code_generator_facts.run_cons
             (source_code_generator.AddLine _)),
          (source_code_generator_facts.run_cons source_code_generator.EnterScope),
          source_code_generator_facts.run_app.
  reflexivity.
Qed.

Lemma construction_calls_count R name Args vs :
  source_code_generator.lines_added (construction_calls R name Args vs)
  = (2 + Z.of_nat (length vs))%Z ∧
  source_code_generator.net_open (construction_calls R name Args vs) = 0%Z.
Proof.
  unfold construction_calls.
  assert (∀ texts : list string,
    source_code_generator.lines_added (source_code_generator.AddLine <$> texts)
    = Z.of_nat (length texts)
    ∧ source_code_generator.net_open (source_code_generator.AddLine <$> texts) = 0%Z)
    as Htexts.
  { induction texts as [|t texts [IH1 IH2]]; [done|].
    cbn [fmap list_fmap source_code_generator.lines_added
         source_code_generator.net_open source_code_generator.delta length].
    split; lia. }
  destruct (Htexts (return_text <$> vs)) as [Hl Hn].
  rewrite length_fmap in Hl.
  cbn [source_code_generator.lines_added source_code_generator.net_open
       source_code_generator.delta].
  rewrite source_code_generator_facts.lines_added_app,
          source_code_generator_facts.net_open_app, Hl, Hn.
  cbn. split; lia.
Qed.

Lemma lookup_function_subprogram mb m f sp i :
  module_ mb = m ++ [f] →
  llvm.fn_subprogram f = Some (llvm.DISubprogram i) →
  dbg_builder_ mb !! i = Some sp →
  function_subprogram mb (length m) = Some sp.
Proof.
  intros Hm Hf Hd. unfold function_subprogram.
  rewrite Hm, lookup_last. cbn. rewrite Hf. cbn. exact Hd.
Qed.

Lemma lookup_function_instructions mb m f bb :
  module_ mb = m ++ [f] →
  llvm.fn_blocks f = [bb] →
  function_instructions mb (length m) = llvm.bb_instructions bb.
Proof.
  intros Hm Hf. unfold function_instructions.
  rewrite Hm, lookup_last. cbn. rewrite Hf. cbn. apply app_nil_r.
Qed.

(** X8: a function whose body is a run of return statements is always
    constructed on a live builder.  Its instructions are these returns
    in order, the i-th carrying the debug location of line
    (declaration line + 1 + i), column 1, in the new subprogram; the
    subprogram is on the declaration line; the generator has performed
    declaration, scope entry, one line per return, scope exit and closing
    brace, so that the line counter has advanced by 2 + the number of
    returns and the indentation is what it was; the functions built
    before are untouched. *)
Theorem returns_carry_their_lines this R Args name vs w mb :
  builders w !! this = Some mb →
  context_ok this w →
  source_code_generator.in_range (source_code_ mb) →
  let line := source_code_generator.line_no_ (source_code_ mb) in
  ∃ r w' mb',
    create_function this R Args name (λ _, returns vs) w = Done r w' ∧
    builders w' !! this = Some mb' ∧
    function_instructions mb' (function_ r)
    = return_instructions (wrap (line + 1))
        (llvm.DISubprogram (length (dbg_builder_ mb))) vs ∧
    llvm.sp_line <$> function_subprogram mb' (function_ r) = Some line ∧
    source_code_ mb'
    = source_code_generator.run (construction_calls R name Args vs) (source_code_ mb) ∧
    source_code_generator.line_no_ (source_code_ mb')
    = wrap (line + 2 + Z.of_nat (length vs)) ∧
    source_code_generator.indent_ (source_code_ mb')
    = source_code_generator.indent_ (source_code_ mb) ∧
    ∀ i, (i < length (module_ mb))%nat → module_ mb' !! i = module_ mb !! i.
Proof.
  intros Hmb Hctx Hg line.
  destruct (returns_construction this R Args name vs w mb Hmb Hctx Hg)
    as (w' & mb' & Hrun & Hb & _ & Hm & _ & Hs & Hd & _ & _).
  destruct (construction_calls_count R name Args vs) as [Hl Hn].
  exists {| fr_name := name; function_ := length (module_ mb) |}, w', mb'.
  split; [exact Hrun|]. split; [exact Hb|]. cbn [function_].
  split; [by rewrite (lookup_function_instructions _ _ _ _ Hm eq_refl)|].
  split.
  { rewrite (lookup_function_subprogram mb' _ _
               (opened_subprogram R Args name mb) _ Hm eq_refl); [reflexivity|].
    rewrite Hd. apply lookup_last. }
  split; [exact Hs|]. rewrite Hs. split; [|split].
  - rewrite source_code_generator_facts.line_no_run, Hl by exact Hg.
    f_equal. subst line. lia.
  - rewrite source_code_generator_facts.indent_run, Hn by exact Hg.
    rewrite Z.mul_0_r, Z.add_0_r.
    apply source_code_generator_facts.wrap_small, Hg.
  - intros i Hi. rewrite Hm. by apply lookup_app_l.
Qed.

Lemma returns_carry_their_lines_witness :
  ∃ r w' mb',
    create_function 0 int32_t [] "seven" (λ _, returns [seven; eight])
      (fresh_world "m") = Done r w' ∧
    builders w' !! 0%nat = Some mb' ∧
    function_instructions mb' (function_ r)
    = [(llvm.Ret (llvm.ConstantInt 32 7),
        Some (llvm.DebugLoc_get 2 1 (llvm.DISubprogram 0)));
       (llvm.Ret (llvm.ConstantInt 32 8),
        Some (llvm.DebugLoc_get 3 1 (llvm.DISubprogram 0)))] ∧
    source_code_generator.line_no_ (source_code_ mb') = 5%Z.
Proof.
  destruct (returns_carry_their_lines 0 int32_t [] "seven"
              [seven; eight] (fresh_world "m") (new_module_builder "m")
              eq_refl (or_introl eq_refl))
    as (r & w' & mb' & Hrun & Hb & Hi & _ & _ & Hl & _).
  { split; vm_compute; split; congruence. }
  exists r, w', mb'. split; [exact Hrun|]. split; [exact Hb|].
  split; [exact Hi | exact Hl].
Defined.

(** X9: two functions constructed one after the other on the same
    builder get consecutive handles; the listing is the lines of the
    first followed by the lines of the second; the subprogram of the
    second is on the line that follows the closing line of the first;
    and the instructions of the first are not touched by the second
    construction. *)
Theorem second_function_follows_first this R1 A1 n1 vs1 R2 A2 n2 vs2 w mb :
  builders w !! this = Some mb →
  context_ok this w →
  source_code_generator.in_range (source_code_ mb) →
  let line := source_code_generator.line_no_ (source_code_ mb) in
  let sp := length (dbg_builder_ mb) in
  ∃ r1 r2 w' mb',
    (r1 ← create_function this R1 A1 n1 (λ _, returns vs1);
     r2 ← create_function this R2 A2 n2 (λ _, returns vs2);
     mret (r1, r2)) w = Done (r1, r2) w' ∧
    builders w' !! this = Some mb' ∧
    function_ r2 = S (function_ r1) ∧
    source_code_ mb'
    = source_code_generator.run
        (construction_calls R1 n1 A1 vs1 ++ construction_calls R2 n2 A2 vs2)
        (source_code_ mb) ∧
    llvm.sp_line <$> function_subprogram mb' (function_ r1) = Some line ∧
    llvm.sp_line <$> function_subprogram mb' (function_ r2)
    = Some (wrap (line + 2 + Z.of_nat (length vs1))) ∧
    function_instructions mb' (function_ r1)
    = return_instructions (wrap (line + 1)) (llvm.DISubprogram sp) vs1 ∧
    function_instructions mb' (function_ r2)
    = return_instructions (wrap (line + 3 + Z.of_nat (length vs1)))
        (llvm.DISubprogram (S sp)) vs2.
Proof.
  intros Hmb Hctx Hg line sp.
  destruct (returns_construction this R1 A1 n1 vs1 w mb Hmb Hctx Hg)
    as (w1 & mb1 & Hrun1 & Hb1 & Hc1 & Hm1 & _ & Hs1 & Hd1 & _ & _).
  assert (context_ok this w1) as Hctx1 by (unfold context_ok; by rewrite Hc1).
  assert (source_code_generator.in_range (source_code_ mb1)) as Hg1.
  { rewrite Hs1. by apply source_code_generator_facts.run_in_range. }
  destruct (returns_construction this R2 A2 n2 vs2 w1 mb1 Hb1 Hctx1 Hg1)
    as (w2 & mb2 & Hrun2 & Hb2 & _ & Hm2 & _ & Hs2 & Hd2 & _ & _).
  destruct (construction_calls_count R1 n1 A1 vs1) as [Hl1 _].
  assert (source_code_generator.line_no_ (source_code_ mb1)
          = wrap (line + 2 + Z.of_nat (length vs1))) as Hline1.
  { rewrite Hs1, source_code_generator_facts.line_no_run, Hl1 by exact Hg.
    f_equal. subst line. lia. }
  assert (length (module_ mb1) = S (length (module_ mb))) as Hlen.
  { rewrite Hm1, length_app. cbn. lia. }
  assert (length (dbg_builder_ mb1) = S sp) as Hlend.
  { rewrite Hd1, length_app. cbn. subst sp. lia. }
  eexists _, _, w2, mb2. split.
  { unfold mbind, M_bind. rewrite Hrun1, Hrun2. reflexivity. }
  split; [exact Hb2|]. cbn [function_]. split; [exact Hlen|].
  split; [by rewrite Hs2, Hs1, source_code_generator_facts.run_app|].
  split; [|split; [|split]].
  - unfold function_subprogram. rewrite Hm2, lookup_app_l by lia.
    rewrite Hm1, lookup_last. cbn. rewrite Hd2, lookup_app_l by lia.
    rewrite Hd1, lookup_last. reflexivity.
  - rewrite (lookup_function_subprogram mb2 _ _
               (opened_subprogram R2 A2 n2 mb1) _ Hm2 eq_refl).
    + cbn. unfold source_code_generator.current_line. by rewrite Hline1.
    + rewrite Hd2. apply lookup_last.
  - unfold function_instructions. rewrite Hm2, lookup_app_l by lia.
    rewrite Hm1, lookup_last. cbn. apply app_nil_r.
  - rewrite (lookup_function_instructions _ _ _ _ Hm2 eq_refl). cbn.
    rewrite Hline1, Hlend. unfold return_instructions.
    apply imap_ext. intros i v _. cbn. do 3 f_equal.
    rewrite ?source_code_generator_facts.wrap_add_l, <- Z.add_assoc,
      ?source_code_generator_facts.wrap_add_l.
    f_equal. subst line. lia.
Qed.

Lemma second_function_follows_first_witness :
  ∃ r1 r2 w' mb',
    (r1 ← create_function 0 int32_t [] "one" (λ _, returns [seven]);
     r2 ← create_function 0 int32_t [] "two" (λ _, returns [eight]);
     mret (r1, r2)) (fresh_world "m") = Done (r1, r2) w' ∧
    builders w' !! 0%nat = Some mb' ∧
    llvm.sp_line <$> function_subprogram mb' (function_ r1) = Some 1%Z ∧
    llvm.sp_line <$> function_subprogram mb' (function_ r2) = Some 4%Z.
Proof.
  destruct (second_function_follows_first 0 int32_t [] "one" [seven]
              int32_t [] "two" [eight] (fresh_world "m")
              (new_module_builder "m") eq_refl (or_introl eq_refl))
    as (r1 & r2 & w' & mb' & Hrun & Hb & _ & _ & H1 & H2 & _).
  { split; vm_compute; split; congruence. }
  exists r1, r2, w', mb'. split; [exact Hrun|]. split; [exact Hb|].
  split; [exact H1 | exact H2].
Defined.

(** X10: a body may construct another function on the same builder.
    The inner body then runs with that builder still current, two scopes
    deep in the listing, in a subprogram that is a child of the outer
    function's subprogram; and when the outer construction returns, the
    debug scope and the current builder are the ones from before the
    outer call, while the cursor stays where the inner body left it. *)
Theorem nested_construction this R Args name R' Args' name' fb' w mb w2 mb2 :
  builders w !! this = Some mb →
  context_ok this w →
  let outer := body_builder R Args name mb in
  let inner_world :=
    body_world this R' Args' name' outer (body_world this R Args name mb w) in
  fb' (function_builder.argument_values (S (length (module_ mb))) Args')
      inner_world = Done tt w2 →
  builders w2 !! this = Some mb2 →
  ∃ inner sp r w' mb',
    builders inner_world !! this = Some inner ∧
    current_builder inner_world = Some this ∧
    dbg_scope_ inner = llvm.DISubprogram (S (length (dbg_builder_ mb))) ∧
    dbg_builder_ inner !! S (length (dbg_builder_ mb)) = Some sp ∧
    llvm.sp_scope sp = llvm.DISubprogram (length (dbg_builder_ mb)) ∧
    source_code_generator.indent_ (source_code_ inner)
    = wrap (wrap (source_code_generator.indent_ (source_code_ mb) + 4) + 4) ∧
    create_function this R Args name (nested this R' Args' name' fb') w
    = Done r w' ∧
    builders w' !! this = Some mb' ∧
    dbg_scope_ mb' = dbg_scope_ mb ∧
    current_builder w' = current_builder w ∧
    ir_builder_ mb' = ir_builder_ mb2.
Proof.
  intros Hmb Hctx outer inner_world Hfb H2.
  pose proof (body_world_builder this R Args name mb w) as Hb.
  pose proof (body_world_current this R Args name mb w) as Hc.
  fold outer in Hb.
  assert (length (module_ outer) = S (length (module_ mb))) as Hlen.
  { subst outer. cbn. rewrite length_app. cbn. lia. }
  assert (length (dbg_builder_ outer) = S (length (dbg_builder_ mb))) as Hlend.
  { subst outer. cbn. rewrite length_app. cbn. lia. }
  assert (context_ok this (body_world this R Args name mb w)) as Hctx'
    by (right; exact Hc).
  rewrite <- Hlen in Hfb.
  pose proof (create_function_returns this R' Args' name' fb' _ outer w2 mb2
                Hb Hctx' Hfb H2) as Hinner.
  assert (nested this R' Args' name' fb'
            (function_builder.argument_values (length (module_ mb)) Args)
            (body_world this R Args name mb w)
          = Done tt (end_world this (dbg_scope_ outer) mb2
                       (body_world this R Args name mb w) w2)) as Hnested.
  { unfold nested, mbind, M_bind. rewrite Hinner. reflexivity. }
  exists (body_builder R' Args' name' outer), (opened_subprogram R' Args' name' outer).
  eexists _, _, _.
  split; [apply body_world_builder|]. split; [apply body_world_current|].
  split.
  { change (dbg_scope_ (body_builder R' Args' name' outer))
      with (llvm.DISubprogram (length (dbg_builder_ outer))).
    by rewrite Hlend. }
  split.
  { rewrite <- Hlend.
    change (dbg_builder_ (body_builder R' Args' name' outer))
      with (dbg_builder_ outer ++ [opened_subprogram R' Args' name' outer]).
    apply lookup_last. }
  split; [reflexivity|]. split; [reflexivity|].
  split.
  { apply (create_function_returns this R Args name _ w mb _
             (set_dbg_scope (dbg_scope_ outer) (function_builder.close_body mb2))
             Hmb Hctx Hnested).
    apply lookup_insert_eq. }
  split; [apply lookup_insert_eq|]. repeat split.
Qed.

Lemma nested_construction_witness :
  ∃ r w' mb',
    create_function 0 void [] "outer" (nested 0 void [] "inner" empty_body)
      (fresh_world "m") = Done r w' ∧
    builders w' !! 0%nat = Some mb' ∧
    dbg_scope_ mb' = llvm.DIFile 0 ∧
    llvm.insert_point (ir_builder_ mb') = Some (1%nat, 0%nat).
Proof.
  assert (∃ mb2,
    builders (body_world 0 void [] "inner"
                (body_builder void [] "outer" (new_module_builder "m"))
                (body_world 0 void [] "outer" (new_module_builder "m")
                   (fresh_world "m"))) !! 0%nat = Some mb2
    ∧ llvm.insert_point (ir_builder_ mb2) = Some (1%nat, 0%nat))
    as (mb2 & H2 & Hip).
  { eexists. split; vm_compute; reflexivity. }
  destruct (nested_construction 0 void [] "outer" void [] "inner" empty_body
              (fresh_world "m") (new_module_builder "m") _ mb2
              eq_refl (or_introl eq_refl) eq_refl H2)
    as (_ & _ & r & w' & mb' & _ & _ & _ & _ & _ & _ & Hrun & Hb & Hs & _ & Hir).
  exists r, w', mb'. split; [exact Hrun|]. split; [exact Hb|].
  split; [exact Hs|]. by rewrite Hir.
Defined.

End construction_facts.

(** * When a construction returns *)

Section outcome_facts.

(** X11: [create_function] on a live builder returns exactly when the
    assertion on the current builder holds and the body callback, run
    in the body world, returns and leaves the builder alive; when the
    callback fails, [create_function] fails in the same way, nothing
    being caught or retried. *)
Theorem create_function_returns_exactly_when this R Args name fb w mb :
  builders w !! this = Some mb →
  let result :=
    fb (function_builder.argument_values (length (module_ mb)) Args)
       (body_world this R Args name mb w) in
  ((∃ r w', create_function this R Args name fb w = Done r w')
   ↔ context_ok this w
     ∧ ∃ w2, result = Done tt w2 ∧ is_Some (builders w2 !! this)) ∧
  (context_ok this w →
   ∀ e, result = Fail e → create_function this R Args name fb w = Fail e).
Proof.
  intros Hmb result. split; [split|].
  - intros (r & w' & Hrun).
    assert (context_ok this w) as Hctx.
    { unfold context_ok. destruct (current_builder w) as [c|] eqn:Hc; [|by left].
      destruct (decide (c = this)) as [->|Hne]; [by right|].
      rewrite create_function_asserts in Hrun; [discriminate Hrun|].
      unfold context_ok. rewrite Hc. intros [?|?]; congruence. }
    split; [exact Hctx|].
    rewrite (create_function_runs_body _ _ _ _ _ _ _ Hmb Hctx) in Hrun.
    fold result in Hrun.
    destruct result as [[] w2|e|w2']; [|discriminate Hrun..].
    exists w2. split; [reflexivity|].
    destruct (builders w2 !! this); [by eexists | discriminate Hrun].
  - intros (Hctx & w2 & Hres & [mb2 H2]). eexists _, _.
    by apply (create_function_returns _ _ _ _ _ _ _ _ _ Hmb Hctx Hres H2).
  - intros Hctx e He.
    rewrite (create_function_runs_body _ _ _ _ _ _ _ Hmb Hctx).
    fold result. by rewrite He.
Qed.

Lemma create_function_returns_exactly_when_witness :
  (∃ r w', create_function 0 void [] "f" return_first
             {| builders := builders (fresh_world "m");
                current_builder := Some 1%nat |} = Done r w')
  ↔ context_ok 0 {| builders := builders (fresh_world "m");
                    current_builder := Some 1%nat |}
    ∧ ∃ w2,
        return_first
          (function_builder.argument_values
             (length (module_ (new_module_builder "m"))) [])
          (body_world 0 void [] "f" (new_module_builder "m")
             {| builders := builders (fresh_world "m");
                current_builder := Some 1%nat |}) = Done tt w2
        ∧ is_Some (builders w2 !! 0%nat).
Proof.
  exact (proj1 (create_function_returns_exactly_when 0 void [] "f" return_first
                  {| builders := builders (fresh_world "m");
                     current_builder := Some 1%nat |}
                  (new_module_builder "m") eq_refl)).
Defined.

End outcome_facts.
